(** * Political news sentiment pipeline (CSE-3000 Group 8)

    A shallow embedding of the three scripts of the repository:
    - [ProjectCodeTest1.py]: page-scrape source, newspaper extraction,
      transformer classifier;
    - [ProjectCodeTest2.py]: RSS feed source, paragraph extraction, VADER;
    - [pro1.py]: RSS feed source, newspaper extraction, VADER, ANOVA.

    Python exceptions are modelled by [result]; a script run is a
    computation in a writer/exception monad [M] whose log records the
    observable effects (network retrievals, scorer calls, prints).  A
    Python [str] is held as its UTF-8 bytes, and its length and slices
    count characters ([py_len], [py_slice_to]).  The
    third-party libraries (requests + BeautifulSoup, newspaper, feedparser,
    transformers, VADER, scipy) are parameters of a Section. *)

From Stdlib Require Import Ascii String List Bool Arith Lia Permutation Sorted.
Import ListNotations.
Open Scope string_scope.

(** ** Exceptions and the script monad *)

Inductive result (A : Type) : Type :=
| Ok (a : A)
| Raise (e : string).
Arguments Ok {A} a.
Arguments Raise {A} e.

(** Observable effects of a run. *)
Inductive event : Type :=
| Get (url : string)            (** retrieval of a listing page or a feed *)
| Download (link : string)      (** retrieval of one article *)
| Classify (input : string)     (** call of the transformers classifier *)
| Polarity (input : string)     (** call of VADER's [polarity_scores] *)
| FOneway (sizes : list nat)    (** call of [f_oneway]; sizes of its groups *)
| Print (msg : string).

Definition M (A : Type) : Type := (list event * result A)%type.

Definition ret {A} (a : A) : M A := ([], Ok a).
Definition lift {A} (r : result A) : M A := ([], r).
Definition emit (ev : event) : M unit := ([ev], Ok tt).

Definition bind {A B} (m : M A) (f : A -> M B) : M B :=
  match m with
  | (l, Ok a) => let (l', r) := f a in (app l l', r)
  | (l, Raise e) => (l, Raise e)
  end.

(** [try: m except Exception as e: h e] *)
Definition try_except {A} (m : M A) (h : string -> M A) : M A :=
  match m with
  | (l, Ok a) => (l, Ok a)
  | (l, Raise e) => let (l', r) := h e in (app l l', r)
  end.

Notation "x <- m ;; k" := (bind m (fun x => k))
  (at level 61, m at next level, right associativity).
Notation "m ;;; k" := (bind m (fun _ => k))
  (at level 61, right associativity).

(** A list comprehension whose body may raise. *)
Fixpoint mapM {A B} (f : A -> M B) (xs : list A) : M (list B) :=
  match xs with
  | [] => ret []
  | x :: xs' => y <- f x ;; ys <- mapM f xs' ;; ret (y :: ys)
  end.

(** [out = []; for x in xs: out += body(x)]: a loop whose body may raise. *)
Fixpoint loopM {A B} (body : A -> M (list B)) (xs : list A) : M (list B) :=
  match xs with
  | [] => ret []
  | x :: xs' => ys <- body x ;; zs <- loopM body xs' ;; ret (app ys zs)
  end.

(** ** Python string operations *)

(** A Python [str] is represented by its UTF-8 encoding: a Rocq [string]
    is a string of bytes.  A byte [10xxxxxx] continues the character
    before it; every other byte starts a character. *)
Definition is_cont (c : ascii) : bool :=
  match c with Ascii _ _ _ _ _ _ b6 b7 => andb b7 (negb b6) end.

(** [len(s)]: the number of characters (code points). *)
Fixpoint py_len (s : string) : nat :=
  match s with
  | EmptyString => 0
  | String c s' => if is_cont c then py_len s' else S (py_len s')
  end.

(** [s[:n]]: the first [n] characters, each with all of its bytes. *)
Fixpoint py_slice_to (n : nat) (s : string) : string :=
  match s with
  | EmptyString => EmptyString
  | String c s' =>
      if is_cont c then String c (py_slice_to n s')
      else match n with
           | 0 => EmptyString
           | S n' => String c (py_slice_to n' s')
           end
  end.

(** [sub in s] *)
Definition py_contains (sub s : string) : bool :=
  match index 0 sub s with Some _ => true | None => false end.

(** [s.startswith(p)] *)
Definition py_startswith (p s : string) : bool := prefix p s.

Fixpoint split_fuel (fuel : nat) (sep s : string) : list string :=
  match fuel with
  | 0 => [s]
  | S f =>
      match index 0 sep s with
      | Some i =>
          substring 0 i s
            :: split_fuel f sep
                 (substring (i + String.length sep) (String.length s - (i + String.length sep)) s)
      | None => [s]
      end
  end.

(** [s.split(sep)] for a non-empty [sep]: each step consumes at least one
    character, so [length s + 1] rounds suffice. *)
Definition py_split (sep s : string) : list string :=
  split_fuel (S (String.length s)) sep s.

(** [xs[i]] for a non-negative index. *)
Definition py_getitem {A} (xs : list A) (i : nat) : result A :=
  match nth_error xs i with
  | Some x => Ok x
  | None => Raise "IndexError: list index out of range"
  end.

(** [getattr(obj, name)] on a [FeedParserDict]: [None] is a key the
    entry does not have. *)
Definition py_attr (v : option string) (name : string) : result string :=
  match v with
  | Some x => Ok x
  | None => Raise ("AttributeError: 'FeedParserDict' object has no attribute '"
                   ++ name ++ "'")
  end.

(** A feed entry: each field may be absent from the feed item. *)
Record Entry : Type := mkEntry {
  link : option string;
  title : option string;
  published : option string
}.

(** The behaviour of the third-party libraries the scripts call.  A
    raised exception is a [Raise]. *)
Record Libs (Score : Type) : Type := mkLibs {
  (** [BeautifulSoup(requests.get(url).content).find_all('a', href=True)],
      projected on the [href] attributes. *)
  get_listing : string -> result (list string);
  (** [Article(link); download(); parse(); .text] of newspaper3k. *)
  newspaper : string -> result string;
  (** [classifier(text)[0]]: label and confidence. *)
  classifier : string -> result (string * Score);
  (** [list(set(xs))]: the iteration order of a Python set. *)
  set_list : list string -> list string;
  (** [feedparser.parse(url).entries]: feedparser does not raise on an
      unreachable or malformed feed, it flags the result ([bozo]) and
      returns the entries it could read, possibly none. *)
  parse_feed : string -> list Entry;
  (** [p.get_text() for p in BeautifulSoup(requests.get(link, timeout=10)
      .content).find_all('p')]. *)
  get_paragraphs : string -> result (list string);
  (** [sia.polarity_scores(txt)['compound']]. *)
  polarity : string -> result Score;
  (** [scipy.stats.f_oneway( *groups)]: statistic and p-value. *)
  f_oneway : list (list Score) -> result (Score * Score);
  (** [p_value < 0.05]. *)
  p_lt_005 : Score -> bool
}.
Arguments mkLibs {Score}.
Arguments get_listing {Score} _ _.
Arguments newspaper {Score} _ _.
Arguments classifier {Score} _ _.
Arguments set_list {Score} _ _.
Arguments parse_feed {Score} _ _.
Arguments get_paragraphs {Score} _ _.
Arguments polarity {Score} _ _.
Arguments f_oneway {Score} _ _.
Arguments p_lt_005 {Score} _ _.

(** A row of [data] in ProjectCodeTest1.py. *)
Record Row1 (Score : Type) : Type := mkRow1 {
  r1_outlet : string;
  r1_text : string;
  r1_label : string;
  r1_score : Score
}.
Arguments mkRow1 {Score}.
Arguments r1_outlet {Score}.
Arguments r1_text {Score}.
Arguments r1_label {Score}.
Arguments r1_score {Score}.

Section Pipeline.

(** Sentiment values (floats in Python). *)
Context {Score : Type} (L : Libs Score).

(** *** ProjectCodeTest1.py: page scraping and classifier *)

Definition news_sites : list (string * string) :=
  [("CNN", "https://edition.cnn.com/politics");
   ("Fox News", "https://www.foxnews.com/politics");
   ("NYT", "https://www.nytimes.com/section/politics")].

(** [url.split("//")[1].split("/")[0]] *)
Definition host_of (url : string) : result string :=
  match py_getitem (py_split "//" url) 1 with
  | Ok rest => py_getitem (py_split "/" rest) 0
  | Raise e => Raise e
  end.

(** [link if link.startswith('http') else f'https://{host}{link}'] *)
Definition resolve (url lnk : string) : M string :=
  if py_startswith "http" lnk then ret lnk
  else h <- lift (host_of url) ;; ret ("https://" ++ h ++ lnk).

Definition download_text (lnk : string) : M string :=
  emit (Download lnk) ;;; lift (newspaper L lnk).

Fixpoint extract_loop (links : list string) : M (list string) :=
  match links with
  | [] => ret []
  | lnk :: rest =>
      t <- try_except
             (txt <- download_text lnk ;; ret [py_slice_to 1000 txt])
             (fun e => emit (Print ("Skipping article: " ++ e)) ;;; ret []) ;;
      ts <- extract_loop rest ;;
      ret (app t ts)
  end.

(** The candidate links of a listing page: [list(set(...))] of the hrefs
    containing ['/politics/']. *)
Definition candidate_links (hrefs : list string) : list string :=
  set_list L (filter (py_contains "/politics/") hrefs).

Definition extract_articles (url : string) (max_articles : nat)
  : M (list string) :=
  emit (Print ("Scraping " ++ url)) ;;;
  emit (Get url) ;;;
  hrefs <- lift (get_listing L url) ;;
  links <- mapM (resolve url) (firstn max_articles (candidate_links hrefs)) ;;
  extract_loop links.

Fixpoint classify_loop (outlet : string) (texts : list string)
  : M (list (Row1 Score)) :=
  match texts with
  | [] => ret []
  | text :: rest =>
      r <- try_except
             (emit (Classify (py_slice_to 512 text)) ;;;
              res <- lift (classifier L (py_slice_to 512 text)) ;;
              ret [mkRow1 outlet text (fst res) (snd res)])
             (fun e => emit (Print ("Error classifying text: " ++ e)) ;;;
                       ret []) ;;
      rs <- classify_loop outlet rest ;;
      ret (app r rs)
  end.

(** The collection loop of the script: [data] before the DataFrame. *)
Fixpoint collect1 (sites : list (string * string)) : M (list (Row1 Score)) :=
  match sites with
  | [] => ret []
  | (outlet, url) :: rest =>
      texts <- extract_articles url 10 ;;
      rows <- classify_loop outlet texts ;;
      more <- collect1 rest ;;
      ret (app rows more)
  end.

(** *** Feed variants: ProjectCodeTest2.py and pro1.py *)

Definition feeds : list (string * string) :=
  [("CNN", "http://rss.cnn.com/rss/cnn_allpolitics.rss");
   ("Fox News", "http://feeds.foxnews.com/foxnews/politics");
   ("NYT", "https://rss.nytimes.com/services/xml/rss/nyt/Politics.xml")].

(** The dict [{'title': ..., 'text': ..., 'published': ...}] of an article. *)
Record Art : Type := mkArt {
  a_title : string;
  a_text : string;
  a_published : string
}.

(** A row of [records]. *)
Record Rec : Type := mkRec {
  source : string;
  rec_title : string;
  rec_text : string;
  rec_published : string
}.

Definition nl : string := String (Ascii.ascii_of_nat 10) EmptyString.

(** pro1.py, [fetch_articles], the body of [for entry in entries]:
    newspaper extraction, no truncation.  The handler reads [entry.link]
    again, so an entry without a link raises out of it. *)
Definition fetch_one_pro1 (e : Entry) : M (list Art) :=
  try_except
    (l <- lift (py_attr (link e) "link") ;;
     t <- download_text l ;;
     ti <- lift (py_attr (title e) "title") ;;
     pu <- lift (py_attr (published e) "published") ;;
     ret [mkArt ti t pu])
    (fun ex => l <- lift (py_attr (link e) "link") ;;
               emit (Print ("Error fetching " ++ l ++ ": " ++ ex)) ;;;
               ret []).

Definition fetch_loop_pro1 (entries : list Entry) : M (list Art) :=
  loopM fetch_one_pro1 entries.

Definition fetch_articles_pro1 (feed_url : string) (max_articles : nat)
  : M (list Art) :=
  emit (Get feed_url) ;;;
  fetch_loop_pro1 (firstn max_articles (parse_feed L feed_url)).

(** ProjectCodeTest2.py: [' '.join(p.get_text() for p in paragraphs)]. *)
Definition paragraph_text (lnk : string) : M string :=
  emit (Download lnk) ;;;
  ps <- lift (get_paragraphs L lnk) ;;
  ret (String.concat " " ps).

(** ProjectCodeTest2.py, [fetch_articles], the body of
    [for entry in feed.entries[:max_articles]]. *)
Definition fetch_one_test2 (e : Entry) : M (list Art) :=
  try_except
    (l <- lift (py_attr (link e) "link") ;;
     t <- paragraph_text l ;;
     ti <- lift (py_attr (title e) "title") ;;
     pu <- lift (py_attr (published e) "published") ;;
     ret [mkArt ti t pu])
    (fun ex => l <- lift (py_attr (link e) "link") ;;
               emit (Print ("Failed to fetch article: " ++ l ++ nl ++ ex)) ;;;
               ret []).

Definition fetch_loop_test2 (entries : list Entry) : M (list Art) :=
  loopM fetch_one_test2 entries.

Definition fetch_articles_test2 (feed_url : string) (max_articles : nat)
  : M (list Art) :=
  emit (Get feed_url) ;;;
  fetch_loop_test2 (firstn max_articles (parse_feed L feed_url)).

(** The outcome of the try body of pro1.py's [fetch_articles] for an entry
    whose link [l] could be read, once the article is downloaded: the
    article, or the exception raised. *)
Definition art_pro1 (e : Entry) (l : string) : result Art :=
  match newspaper L l with
  | Raise ex => Raise ex
  | Ok t =>
      match py_attr (title e) "title" with
      | Raise ex => Raise ex
      | Ok ti =>
          match py_attr (published e) "published" with
          | Raise ex => Raise ex
          | Ok pu => Ok (mkArt ti t pu)
          end
      end
  end.

(** The same for ProjectCodeTest2.py. *)
Definition art_test2 (e : Entry) (l : string) : result Art :=
  match get_paragraphs L l with
  | Raise ex => Raise ex
  | Ok ps =>
      match py_attr (title e) "title" with
      | Raise ex => Raise ex
      | Ok ti =>
          match py_attr (published e) "published" with
          | Raise ex => Raise ex
          | Ok pu => Ok (mkArt ti (String.concat " " ps) pu)
          end
      end
  end.

(** The collection loop shared by both feed scripts:
    [for source, url in feeds.items(): print(...); for art in fetch(url): ...] *)
Fixpoint collect (fetch : string -> M (list Art)) (header : string -> string)
    (srcs : list (string * string)) : M (list Rec) :=
  match srcs with
  | [] => ret []
  | (src, url) :: rest =>
      emit (Print (header src)) ;;;
      arts <- fetch url ;;
      more <- collect fetch header rest ;;
      ret (app (map (fun a => mkRec src (a_title a) (a_text a) (a_published a))
                    arts) more)
  end.

Definition collect_test2 (srcs : list (string * string)) : M (list Rec) :=
  collect (fun url => fetch_articles_test2 url 10)
    (fun src => "Fetching from " ++ src ++ "...") srcs.

Definition collect_pro1 (srcs : list (string * string)) : M (list Rec) :=
  collect (fun url => fetch_articles_pro1 url 20)
    (fun src => "Fetching articles from " ++ src ++ "...") srcs.

(** [df['sentiment'] = df['text'].apply(lambda txt: ...)]: no handler
    around the scorer; on an empty DataFrame the column ['text'] does not
    exist. *)
Definition score_column (records : list Rec) : M (list Score) :=
  match records with
  | [] => lift (Raise "KeyError: 'text'")
  | _ => mapM (fun r => emit (Polarity (rec_text r)) ;;;
                        lift (polarity L (rec_text r))) records
  end.

(** ProjectCodeTest2.py, up to the plot: the scored records. *)
Definition main_test2 (srcs : list (string * string))
  : M (list (Rec * Score)) :=
  records <- collect_test2 srcs ;;
  sentiments <- score_column records ;;
  ret (combine records sentiments).

(** [df.groupby('source')]: the keys in sorted order, each with its values
    in row order. *)
Fixpoint insert_key (k : string) (ks : list string) : list string :=
  match ks with
  | [] => [k]
  | k' :: ks' => if String.leb k k' then k :: ks else k' :: insert_key k ks'
  end.

Definition sort_keys (ks : list string) : list string :=
  fold_right insert_key [] ks.

Definition groupby_source (rows : list (string * Score))
  : list (string * list Score) :=
  map (fun k => (k, map snd (filter (fun r => String.eqb (fst r) k) rows)))
      (sort_keys (nodup string_dec (map fst rows))).

Definition verdict_msg (significant : bool) : string :=
  if significant
  then "→ There is a statistically significant difference in sentiment across sources."
  else "→ No significant difference in sentiment detected.".

(** pro1.py, the whole script (the plot and the prints of numbers left
    out): the per-source groups and the significance verdict. *)
Definition main_pro1 (srcs : list (string * string))
  : M (list (string * list Score) * bool) :=
  records <- collect_pro1 srcs ;;
  sentiments <- score_column records ;;
  let groups := groupby_source (combine (map source records) sentiments) in
  emit (FOneway (map (fun g => List.length (snd g)) groups)) ;;;
  sp <- lift (f_oneway L (map snd groups)) ;;
  let significant := p_lt_005 L (snd sp) in
  emit (Print (verdict_msg significant)) ;;;
  ret (groups, significant).

End Pipeline.

(** ** Observations on runs *)

(** The links retrieved as articles, in order. *)
Definition downloads (evs : list event) : list string :=
  flat_map (fun ev => match ev with Download l => [l] | _ => [] end) evs.

Definition is_ok {A} (r : result A) : bool :=
  match r with Ok _ => true | Raise _ => false end.

(** The messages printed, in order. *)
Definition notices (evs : list event) : list string :=
  flat_map (fun ev => match ev with Print m => [m] | _ => [] end) evs.

(** The listing pages and feeds retrieved, in order. *)
Definition gets (evs : list event) : list string :=
  flat_map (fun ev => match ev with Get u => [u] | _ => [] end) evs.

(** The links of the entries that have one, in order. *)
Definition entry_links (entries : list Entry) : list string :=
  flat_map (fun e => match link e with Some l => [l] | None => [] end) entries.

(** The values of the rows with key [k], in row order: one group of
    [groupby_source]. *)
Definition group_of {A} (rows : list (string * A)) (k : string) : list A :=
  map snd (filter (fun r => String.eqb (fst r) k) rows).

(** An event that is not the print of pro1.py's verdict. *)
Definition not_verdict (ev : event) : Prop := forall b, ev <> Print (verdict_msg b).

(** What the code relies on from [list(set(xs))]: every element once. *)
Definition set_semantics (f : list string -> list string) : Prop :=
  forall xs, NoDup (f xs) /\ forall x, In x (f xs) <-> In x xs.

(** ** Concrete library behaviours for small runs

    Scores are natural numbers here (p-values in hundredths).  The listing
    at [failing] raises and the feed at [failing] has no entries; the feed
    at [nolink.example] has an item without a link; the classifier rejects and VADER raises on
    texts containing ["/3"]; [f_oneway] raises on fewer than two groups, as
    scipy does. *)

Definition fx_entry (n : string) : Entry :=
  mkEntry (Some ("https://news.example/politics/" ++ n)) (Some ("Story " ++ n))
          (Some "2025-01-01").

Definition fx_libs (failing : string) : Libs nat :=
  mkLibs
    (fun url => if String.eqb url failing then Raise "ConnectionError"
                else if py_contains "empty" url then Ok ["/politics/empty"]
                else Ok ["/politics/a"; "https://www.foxnews.com/politics/b";
                         "/sports/c"; "/politics/a"])
    (fun lnk => if py_contains "empty" lnk then Ok ""
                else Ok ("Story at " ++ lnk))
    (fun t => if py_contains "/3" t then Raise "RuntimeError"
              else Ok ("POSITIVE", 1))
    (nodup string_dec)
    (fun url => if String.eqb url failing then []
                else if String.eqb url "https://rss.nytimes.com/services/xml/rss/nyt/Politics.xml"
                then []
                else if String.eqb url "http://dup.example/feed"
                then [fx_entry "1"; fx_entry "1"]
                else if String.eqb url "http://five.example/feed"
                then map fx_entry ["1"; "2"; "3"; "4"; "5"]
                else if String.eqb url "http://nolink.example/feed"
                then [fx_entry "1"; mkEntry None (Some "Story 2") (Some "2025-01-01")]
                else [fx_entry "1"])
    (fun lnk => Ok ["Paragraph of " ++ lnk])
    (fun t => if py_contains "/3" t then Raise "ValueError" else Ok 1)
    (fun gs => if Nat.ltb (List.length gs) 2
               then Raise "TypeError: at least two inputs are required"
               else Ok (0, 0))
    (fun p => Nat.ltb p 5).

(** A one-site page scrape, a one-feed collection and their results
    under [fx_libs ""]. *)
Definition fx_sites : list (string * string) :=
  [("Fox News", "http://empty.example/politics")].

Definition fx_rows : list (Row1 nat) := [mkRow1 "Fox News" "" "POSITIVE" 1].

Definition fx_srcs : list (string * string) :=
  [("CNN", "http://rss.cnn.com/rss/cnn_allpolitics.rss")].

Definition fx_recs_pro1 : list Rec :=
  [mkRec "CNN" "Story 1" "Story at https://news.example/politics/1" "2025-01-01"].

Definition fx_recs_test2 : list Rec :=
  [mkRec "CNN" "Story 1" "Paragraph of https://news.example/politics/1" "2025-01-01"].

(** ** Properties *)

Section Facts.

Context {Score : Type} (L : Libs Score).

Lemma bind_eq {A B} (m : M A) (f : A -> M B) :
  bind m f =
  match snd m with
  | Ok a => (app (fst m) (fst (f a)), snd (f a))
  | Raise e => (fst m, Raise e)
  end.
Proof. destruct m as [l [a|e]]; simpl; [destruct (f a)|]; reflexivity. Qed.

Lemma try_except_eq {A} (m : M A) (h : string -> M A) :
  try_except m h =
  match snd m with
  | Ok a => (fst m, Ok a)
  | Raise e => (app (fst m) (fst (h e)), snd (h e))
  end.
Proof. destruct m as [l [a|e]]; simpl; [|destruct (h e)]; reflexivity. Qed.

Lemma extract_loop_eq links :
  extract_loop L links =
  (flat_map (fun lnk => Download lnk ::
               match newspaper L lnk with
               | Ok _ => []
               | Raise e => [Print ("Skipping article: " ++ e)]
               end) links,
   Ok (flat_map (fun lnk => match newspaper L lnk with
                            | Ok t => [py_slice_to 1000 t]
                            | Raise _ => []
                            end) links)).
Proof.
  induction links as [|lnk rest IH]; [reflexivity|].
  simpl. unfold download_text. simpl.
  destruct (newspaper L lnk); simpl; rewrite IH; simpl; rewrite app_nil_r; reflexivity.
Qed.

Lemma classify_loop_eq outlet texts :
  classify_loop L outlet texts =
  (flat_map (fun t => Classify (py_slice_to 512 t) ::
               match classifier L (py_slice_to 512 t) with
               | Ok _ => []
               | Raise e => [Print ("Error classifying text: " ++ e)]
               end) texts,
   Ok (flat_map (fun t => match classifier L (py_slice_to 512 t) with
                          | Ok res => [mkRow1 outlet t (fst res) (snd res)]
                          | Raise _ => []
                          end) texts)).
Proof.
  induction texts as [|t rest IH]; [reflexivity|].
  simpl. destruct (classifier L (py_slice_to 512 t)); simpl; rewrite IH;
    simpl; rewrite app_nil_r; reflexivity.
Qed.

Lemma slice_length n s :
  py_len (py_slice_to n s) = Nat.min n (py_len s).
Proof.
  revert n. induction s as [|c s IH]; intros n; simpl; [lia|].
  destruct (is_cont c) eqn:Ec; simpl; rewrite ?Ec; [apply IH|].
  destruct n as [|n]; simpl; rewrite ?Ec; [reflexivity|]. rewrite IH. reflexivity.
Qed.

Lemma slice_id n s : py_len s <= n -> py_slice_to n s = s.
Proof.
  revert n. induction s as [|c s IH]; intros n H; simpl in *; [reflexivity|].
  destruct (is_cont c); [f_equal; apply IH; exact H|].
  destruct n as [|n]; [lia|]. f_equal. apply IH. lia.
Qed.

Lemma slice_slice m n s :
  m <= n -> py_slice_to m (py_slice_to n s) = py_slice_to m s.
Proof.
  revert m n. induction s as [|c s IH]; intros m n H; simpl; [reflexivity|].
  destruct (is_cont c) eqn:Ec; simpl; rewrite ?Ec; [f_equal; apply IH; exact H|].
  destruct n as [|n]; simpl.
  - destruct m; [reflexivity|lia].
  - rewrite Ec. destruct m as [|m]; [reflexivity|]. f_equal. apply IH. lia.
Qed.

(** The cut never splits a character: what is left starts a character. *)
Lemma slice_prefix n s :
  exists rest, s = py_slice_to n s ++ rest /\
               match rest with EmptyString => True | String c _ => is_cont c = false end.
Proof.
  revert n. induction s as [|c s IH]; intros n; simpl.
  - exists "". split; [reflexivity|exact I].
  - destruct (is_cont c) eqn:Ec.
    + destruct (IH n) as [rest [E Hr]]. exists rest. simpl. rewrite <- E. auto.
    + destruct n as [|n].
      * exists (String c s). simpl. auto.
      * destruct (IH n) as [rest [E Hr]]. exists rest. simpl. rewrite <- E. auto.
Qed.

Lemma downloads_app l1 l2 :
  downloads (app l1 l2) = app (downloads l1) (downloads l2).
Proof. apply flat_map_app. Qed.

Lemma downloads_prints {A} (f : A -> list event) xs :
  (forall x, downloads (f x) = []) ->
  downloads (flat_map f xs) = [].
Proof.
  intros Hf. induction xs as [|x xs IH]; simpl; [reflexivity|].
  rewrite downloads_app, Hf, IH. reflexivity.
Qed.

Lemma downloads_per_item {A} (g : A -> string) (f : A -> list event) xs :
  (forall x, downloads (f x) = []) ->
  downloads (flat_map (fun x => Download (g x) :: f x) xs) = map g xs.
Proof.
  intros Hf. induction xs as [|x xs IH]; simpl; [reflexivity|].
  rewrite downloads_app, Hf, IH. reflexivity.
Qed.

Lemma flat_map_length_le {A B} (f : A -> list B) xs :
  (forall x, List.length (f x) <= 1) ->
  List.length (flat_map f xs) <= List.length xs.
Proof.
  intros Hf. induction xs as [|x xs IH]; simpl; [lia|].
  rewrite length_app. specialize (Hf x). lia.
Qed.

Lemma bind_ok {A B} (m : M A) (f : A -> M B) b :
  snd (bind m f) = Ok b -> exists a, snd m = Ok a /\ snd (f a) = Ok b.
Proof. rewrite bind_eq. destruct (snd m); [eauto|discriminate]. Qed.

Lemma Forall_bind {A B} (P : event -> Prop) (m : M A) (f : A -> M B) :
  Forall P (fst m) -> (forall a, Forall P (fst (f a))) ->
  Forall P (fst (bind m f)).
Proof.
  intros Hm Hf. rewrite bind_eq. destruct (snd m); simpl; auto.
  apply Forall_app; auto.
Qed.

Lemma Forall_flat_map {A} (P : event -> Prop) (f : A -> list event) xs :
  (forall x, Forall P (f x)) -> Forall P (flat_map f xs).
Proof.
  intros Hf. induction xs as [|x xs IH]; simpl; auto.
  apply Forall_app; auto.
Qed.

Lemma downloads_flat_map {A} (f : A -> list event) xs :
  downloads (flat_map f xs) = flat_map (fun x => downloads (f x)) xs.
Proof.
  induction xs as [|x xs IH]; simpl; [reflexivity|].
  rewrite downloads_app, IH. reflexivity.
Qed.

Lemma loopM_ok {A B} (f : A -> M (list B)) (g : A -> list B) xs :
  (forall x, In x xs -> snd (f x) = Ok (g x)) ->
  loopM f xs = (flat_map (fun x => fst (f x)) xs, Ok (flat_map g xs)).
Proof.
  induction xs as [|x xs IH]; intros H; [reflexivity|].
  cbn [loopM]. rewrite bind_eq, (H x (or_introl eq_refl)). cbn [fst snd].
  rewrite bind_eq, IH by (intros y Hy; apply H; right; exact Hy).
  cbn. rewrite app_nil_r. reflexivity.
Qed.

Lemma loopM_raise {A B} (f : A -> M (list B)) xs x :
  In x xs -> is_ok (snd (f x)) = false -> is_ok (snd (loopM f xs)) = false.
Proof.
  intros Hin Hx. induction xs as [|y xs IH]; simpl in *; [contradiction|].
  rewrite bind_eq.
  destruct Hin as [->|Hin].
  - destruct (snd (f x)); [discriminate|reflexivity].
  - destruct (snd (f y)); [|reflexivity].
    simpl. rewrite bind_eq. specialize (IH Hin).
    destruct (snd (loopM f xs)); [discriminate|reflexivity].
Qed.

Lemma Forall_loopM {A B} (P : event -> Prop) (f : A -> M (list B)) xs :
  (forall x, In x xs -> Forall P (fst (f x))) -> Forall P (fst (loopM f xs)).
Proof.
  induction xs as [|x xs IH]; intros H; cbn [loopM]; [constructor|].
  apply Forall_bind; [apply H; left; reflexivity|]. intros ys.
  apply Forall_bind; [apply IH; intros y Hy; apply H; right; exact Hy|].
  intros zs. constructor.
Qed.

Lemma loopM_length {A B} (f : A -> M (list B)) xs ys :
  (forall x zs, snd (f x) = Ok zs -> List.length zs <= 1) ->
  snd (loopM f xs) = Ok ys -> List.length ys <= List.length xs.
Proof.
  intros Hf. revert ys. induction xs as [|x xs IH]; cbn [loopM]; intros ys H.
  - injection H as <-. simpl. lia.
  - apply bind_ok in H as [zs [Hz H]]. apply bind_ok in H as [ws [Hw H]].
    simpl in H. injection H as <-. rewrite length_app.
    specialize (Hf _ _ Hz). specialize (IH _ Hw). simpl. lia.
Qed.

Lemma loopM_downloads {A B} (f : A -> M (list B)) xs :
  (forall x, List.length (downloads (fst (f x))) <= 1) ->
  List.length (downloads (fst (loopM f xs))) <= List.length xs.
Proof.
  intros Hf. induction xs as [|x xs IH]; cbn [loopM]; [simpl; lia|].
  specialize (Hf x). rewrite bind_eq.
  destruct (snd (f x)); cbn [fst snd]; [|simpl; lia].
  rewrite bind_eq. destruct (snd (loopM f xs)); cbn [fst snd ret];
    rewrite downloads_app, length_app; [rewrite app_nil_r|]; simpl; lia.
Qed.

Lemma fetch_one_pro1_nolink e :
  link e = None ->
  fst (fetch_one_pro1 L e) = [] /\ is_ok (snd (fetch_one_pro1 L e)) = false.
Proof. intros H. unfold fetch_one_pro1. rewrite H. split; reflexivity. Qed.

Lemma fetch_one_test2_nolink e :
  link e = None ->
  fst (fetch_one_test2 L e) = [] /\ is_ok (snd (fetch_one_test2 L e)) = false.
Proof. intros H. unfold fetch_one_test2. rewrite H. split; reflexivity. Qed.

Lemma fetch_one_pro1_link e l :
  link e = Some l ->
  fetch_one_pro1 L e =
  (Download l :: match art_pro1 L e l with
                 | Ok _ => []
                 | Raise ex => [Print ("Error fetching " ++ l ++ ": " ++ ex)]
                 end,
   Ok match art_pro1 L e l with Ok a => [a] | Raise _ => [] end).
Proof.
  intros H. unfold fetch_one_pro1, art_pro1, download_text. rewrite H. cbn.
  destruct (newspaper L l), (title e), (published e); reflexivity.
Qed.

Lemma fetch_one_test2_link e l :
  link e = Some l ->
  fetch_one_test2 L e =
  (Download l :: match art_test2 L e l with
                 | Ok _ => []
                 | Raise ex => [Print ("Failed to fetch article: " ++ l ++ nl ++ ex)]
                 end,
   Ok match art_test2 L e l with Ok a => [a] | Raise _ => [] end).
Proof.
  intros H. unfold fetch_one_test2, art_test2, paragraph_text. rewrite H. cbn.
  destruct (get_paragraphs L l), (title e), (published e); reflexivity.
Qed.

(** The effects of one iteration: the download of the link and the
    handler's notice. *)
Lemma fetch_one_pro1_events e :
  Forall (fun ev => match ev with
                    | Download _ => True
                    | Print m => exists l ex, m = "Error fetching " ++ l ++ ": " ++ ex
                    | _ => False
                    end) (fst (fetch_one_pro1 L e)).
Proof.
  destruct (link e) as [l|] eqn:E.
  - rewrite (fetch_one_pro1_link e l E). cbn [fst].
    constructor; [exact I|]. destruct (art_pro1 L e l); repeat constructor; eauto.
  - rewrite (proj1 (fetch_one_pro1_nolink e E)). constructor.
Qed.

Lemma fetch_one_test2_events e :
  Forall (fun ev => match ev with
                    | Download _ => True
                    | Print m => exists l ex, m = "Failed to fetch article: " ++ l ++ nl ++ ex
                    | _ => False
                    end) (fst (fetch_one_test2 L e)).
Proof.
  destruct (link e) as [l|] eqn:E.
  - rewrite (fetch_one_test2_link e l E). cbn [fst].
    constructor; [exact I|]. destruct (art_test2 L e l); repeat constructor; eauto.
  - rewrite (proj1 (fetch_one_test2_nolink e E)). constructor.
Qed.

Lemma fetch_one_pro1_downloads e :
  downloads (fst (fetch_one_pro1 L e))
  = match link e with Some l => [l] | None => [] end.
Proof.
  destruct (link e) as [l|] eqn:E.
  - rewrite (fetch_one_pro1_link e l E). unfold downloads. simpl.
    destruct (art_pro1 L e l); reflexivity.
  - rewrite (proj1 (fetch_one_pro1_nolink e E)). reflexivity.
Qed.

Lemma fetch_one_test2_downloads e :
  downloads (fst (fetch_one_test2 L e))
  = match link e with Some l => [l] | None => [] end.
Proof.
  destruct (link e) as [l|] eqn:E.
  - rewrite (fetch_one_test2_link e l E). unfold downloads. simpl.
    destruct (art_test2 L e l); reflexivity.
  - rewrite (proj1 (fetch_one_test2_nolink e E)). reflexivity.
Qed.

Lemma fetch_one_pro1_length e arts :
  snd (fetch_one_pro1 L e) = Ok arts -> List.length arts <= 1.
Proof.
  destruct (link e) as [l|] eqn:E.
  - rewrite (fetch_one_pro1_link e l E). simpl. intros H. injection H as <-.
    destruct (art_pro1 L e l); simpl; lia.
  - destruct (fetch_one_pro1_nolink e E) as [_ H]. intros H'.
    rewrite H' in H. discriminate.
Qed.

Lemma fetch_one_test2_length e arts :
  snd (fetch_one_test2 L e) = Ok arts -> List.length arts <= 1.
Proof.
  destruct (link e) as [l|] eqn:E.
  - rewrite (fetch_one_test2_link e l E). simpl. intros H. injection H as <-.
    destruct (art_test2 L e l); simpl; lia.
  - destruct (fetch_one_test2_nolink e E) as [_ H]. intros H'.
    rewrite H' in H. discriminate.
Qed.

Lemma fetch_loop_pro1_links entries :
  Forall (fun e => link e <> None) entries ->
  fetch_loop_pro1 L entries =
  (flat_map (fun e => fst (fetch_one_pro1 L e)) entries,
   Ok (flat_map (fun e => match link e with
                          | Some l => match art_pro1 L e l with
                                      | Ok a => [a]
                                      | Raise _ => []
                                      end
                          | None => []
                          end) entries)).
Proof.
  intros H. apply loopM_ok. intros x Hx. rewrite Forall_forall in H.
  destruct (link x) as [l|] eqn:E; [|exfalso; exact (H x Hx E)].
  rewrite (fetch_one_pro1_link x l E). reflexivity.
Qed.

Lemma fetch_loop_test2_links entries :
  Forall (fun e => link e <> None) entries ->
  fetch_loop_test2 L entries =
  (flat_map (fun e => fst (fetch_one_test2 L e)) entries,
   Ok (flat_map (fun e => match link e with
                          | Some l => match art_test2 L e l with
                                      | Ok a => [a]
                                      | Raise _ => []
                                      end
                          | None => []
                          end) entries)).
Proof.
  intros H. apply loopM_ok. intros x Hx. rewrite Forall_forall in H.
  destruct (link x) as [l|] eqn:E; [|exfalso; exact (H x Hx E)].
  rewrite (fetch_one_test2_link x l E). reflexivity.
Qed.

Lemma fetch_loop_pro1_length entries arts :
  snd (fetch_loop_pro1 L entries) = Ok arts ->
  List.length arts <= List.length entries.
Proof. apply loopM_length. exact fetch_one_pro1_length. Qed.

Lemma fetch_loop_test2_length entries arts :
  snd (fetch_loop_test2 L entries) = Ok arts ->
  List.length arts <= List.length entries.
Proof. apply loopM_length. exact fetch_one_test2_length. Qed.

Lemma fetch_loop_pro1_downloads_le entries :
  List.length (downloads (fst (fetch_loop_pro1 L entries))) <= List.length entries.
Proof.
  apply loopM_downloads. intros x. rewrite fetch_one_pro1_downloads.
  destruct (link x); simpl; lia.
Qed.

Lemma fetch_loop_test2_downloads_le entries :
  List.length (downloads (fst (fetch_loop_test2 L entries))) <= List.length entries.
Proof.
  apply loopM_downloads. intros x. rewrite fetch_one_test2_downloads.
  destruct (link x); simpl; lia.
Qed.

Lemma resolve_events url lnk : fst (resolve url lnk) = [].
Proof.
  unfold resolve. destruct (py_startswith "http" lnk); [reflexivity|].
  rewrite bind_eq. simpl. destruct (host_of url); reflexivity.
Qed.

Lemma mapM_resolve url xs :
  fst (mapM (resolve url) xs) = [] /\
  match snd (mapM (resolve url) xs) with
  | Ok ys => List.length ys = List.length xs
  | Raise _ => True
  end.
Proof.
  induction xs as [|x xs [IHe IHr]]; simpl; [auto|].
  rewrite !bind_eq, resolve_events.
  destruct (snd (resolve url x)); simpl; [|auto].
  rewrite !bind_eq, IHe.
  destruct (snd (mapM (resolve url) xs)); simpl; auto.
Qed.

Lemma extract_articles_eq url max :
  extract_articles L url max =
  match get_listing L url with
  | Raise e => ([Print ("Scraping " ++ url); Get url], Raise e)
  | Ok hrefs =>
      match snd (mapM (resolve url) (firstn max (candidate_links L hrefs))) with
      | Raise e => ([Print ("Scraping " ++ url); Get url], Raise e)
      | Ok links => (Print ("Scraping " ++ url) :: Get url
                       :: fst (extract_loop L links), snd (extract_loop L links))
      end
  end.
Proof.
  unfold extract_articles. rewrite !bind_eq. simpl.
  destruct (get_listing L url) as [hrefs|e]; simpl; [|reflexivity].
  rewrite bind_eq.
  destruct (mapM_resolve url (firstn max (candidate_links L hrefs))) as [He _].
  rewrite He.
  destruct (snd (mapM (resolve url) (firstn max (candidate_links L hrefs))));
    reflexivity.
Qed.

Lemma fetch_articles_pro1_eq url max :
  fetch_articles_pro1 L url max =
  (Get url :: fst (fetch_loop_pro1 L (firstn max (parse_feed L url))),
   snd (fetch_loop_pro1 L (firstn max (parse_feed L url)))).
Proof. unfold fetch_articles_pro1. rewrite bind_eq. reflexivity. Qed.

Lemma fetch_articles_test2_eq url max :
  fetch_articles_test2 L url max =
  (Get url :: fst (fetch_loop_test2 L (firstn max (parse_feed L url))),
   snd (fetch_loop_test2 L (firstn max (parse_feed L url)))).
Proof. unfold fetch_articles_test2. rewrite bind_eq. reflexivity. Qed.

Lemma extract_loop_downloads links :
  downloads (fst (extract_loop L links)) = links.
Proof.
  rewrite extract_loop_eq. simpl.
  rewrite downloads_per_item with (g := fun l => l), map_id; [reflexivity|].
  intros x. destruct (newspaper L x); reflexivity.
Qed.

Lemma extract_loop_length links :
  match snd (extract_loop L links) with
  | Ok arts => List.length arts <= List.length links
  | Raise _ => True
  end.
Proof.
  rewrite extract_loop_eq. simpl. apply flat_map_length_le.
  intros x. destruct (newspaper L x); simpl; lia.
Qed.

(** C9. Candidate limit bound: in each source variant of the repository
    (page scraping in ProjectCodeTest1.py, feeds in ProjectCodeTest2.py and
    pro1.py), fetching the candidates of one outlet with limit [max]
    retrieves at most [max] article links and returns at most [max]
    articles. *)
Theorem candidate_limit (url : string) (max : nat) :
  (List.length (downloads (fst (extract_articles L url max))) <= max /\
   match snd (extract_articles L url max) with
   | Ok arts => List.length arts <= max
   | Raise _ => True
   end) /\
  (List.length (downloads (fst (fetch_articles_pro1 L url max))) <= max /\
   match snd (fetch_articles_pro1 L url max) with
   | Ok arts => List.length arts <= max
   | Raise _ => True
   end) /\
  (List.length (downloads (fst (fetch_articles_test2 L url max))) <= max /\
   match snd (fetch_articles_test2 L url max) with
   | Ok arts => List.length arts <= max
   | Raise _ => True
   end).
Proof.
  split; [|split].
  - rewrite extract_articles_eq.
    destruct (get_listing L url) as [hrefs|e]; simpl; [|lia].
    set (cands := firstn max (candidate_links L hrefs)).
    assert (Hc : List.length cands <= max) by apply firstn_le_length.
    destruct (mapM_resolve url cands) as [_ Hr].
    destruct (snd (mapM (resolve url) cands)) as [links|e]; simpl; [|lia].
    rewrite extract_loop_downloads.
    pose proof (extract_loop_length links) as Hl.
    destruct (snd (extract_loop L links)); lia.
  - rewrite fetch_articles_pro1_eq. cbn [fst snd].
    pose proof (firstn_le_length max (parse_feed L url)) as Hc.
    change (downloads (Get url :: ?x)) with (downloads x).
    pose proof (fetch_loop_pro1_downloads_le (firstn max (parse_feed L url))).
    split; [lia|].
    destruct (snd (fetch_loop_pro1 L (firstn max (parse_feed L url)))) eqn:E;
      [|exact I].
    pose proof (fetch_loop_pro1_length _ _ E). lia.
  - rewrite fetch_articles_test2_eq. cbn [fst snd].
    pose proof (firstn_le_length max (parse_feed L url)) as Hc.
    change (downloads (Get url :: ?x)) with (downloads x).
    pose proof (fetch_loop_test2_downloads_le (firstn max (parse_feed L url))).
    split; [lia|].
    destruct (snd (fetch_loop_test2 L (firstn max (parse_feed L url)))) eqn:E;
      [|exact I].
    pose proof (fetch_loop_test2_length _ _ E). lia.
Qed.

(** Only the classification loop calls the classifier. *)
Lemma extract_articles_no_classify url max :
  Forall (fun ev => match ev with Classify _ => False | _ => True end)
         (fst (extract_articles L url max)).
Proof.
  rewrite extract_articles_eq.
  destruct (get_listing L url) as [hrefs|e]; [|repeat constructor].
  destruct (snd (mapM (resolve url) (firstn max (candidate_links L hrefs))))
    as [links|e]; [|repeat constructor].
  simpl. repeat constructor. rewrite extract_loop_eq. simpl.
  apply Forall_flat_map. intros x.
  destruct (newspaper L x); repeat constructor.
Qed.

Lemma classify_loop_inputs outlet texts :
  Forall (fun ev => match ev with
                    | Classify x => exists t, In t texts /\ x = py_slice_to 512 t
                    | _ => True
                    end) (fst (classify_loop L outlet texts)).
Proof.
  rewrite classify_loop_eq. simpl.
  rewrite Forall_forall. intros ev Hin.
  apply in_flat_map in Hin as [t [Ht Hin]].
  destruct Hin as [<-|Hin]; [eauto|].
  destruct (classifier L (py_slice_to 512 t)); simpl in Hin;
    [contradiction|destruct Hin as [<-|[]]; exact I].
Qed.

Lemma extract_articles_texts url max :
  match snd (extract_articles L url max) with
  | Ok texts => Forall (fun t => exists lnk raw,
                          In lnk (downloads (fst (extract_articles L url max))) /\
                          newspaper L lnk = Ok raw /\ t = py_slice_to 1000 raw)
                       texts
  | Raise _ => True
  end.
Proof.
  rewrite extract_articles_eq.
  destruct (get_listing L url) as [hrefs|e]; [|exact I].
  destruct (snd (mapM (resolve url) (firstn max (candidate_links L hrefs))))
    as [links|e]; [|exact I].
  cbn [fst snd]. change (downloads (Print ?a :: Get ?b :: ?x)) with (downloads x).
  rewrite extract_loop_downloads, extract_loop_eq. cbn [snd].
  rewrite Forall_forall. intros t Hin.
  apply in_flat_map in Hin as [lnk [Hl Hin]].
  destruct (newspaper L lnk) as [raw|e] eqn:E; simpl in Hin;
    [destruct Hin as [<-|[]]; eauto|contradiction].
Qed.

Lemma classify_loop_rows outlet texts :
  match snd (classify_loop L outlet texts) with
  | Ok rows =>
      Forall (fun r => In (r1_text r) texts /\ r1_outlet r = outlet /\
                       classifier L (py_slice_to 512 (r1_text r))
                       = Ok (r1_label r, r1_score r)) rows
  | Raise _ => True
  end.
Proof.
  rewrite classify_loop_eq. simpl.
  rewrite Forall_forall. intros r Hin.
  apply in_flat_map in Hin as [t [Ht Hin]].
  destruct (classifier L (py_slice_to 512 t)) as [[lbl sc]|e] eqn:E;
    simpl in Hin; [|contradiction].
  destruct Hin as [<-|[]]. simpl. auto.
Qed.

Lemma collect1_events o u rest :
  fst (collect1 L ((o, u) :: rest)) =
  match snd (extract_articles L u 10) with
  | Raise _ => fst (extract_articles L u 10)
  | Ok texts => app (fst (extract_articles L u 10))
                    (app (fst (classify_loop L o texts)) (fst (collect1 L rest)))
  end.
Proof.
  cbn [collect1]. rewrite bind_eq.
  destruct (snd (extract_articles L u 10)) as [texts|e]; [|reflexivity].
  cbn [fst snd]. rewrite bind_eq, classify_loop_eq. cbn [fst snd].
  rewrite bind_eq. destruct (snd (collect1 L rest)); cbn [fst snd ret];
    rewrite ?app_nil_r; reflexivity.
Qed.

(** Every classifier input of a run is the cut of the text of an article
    the run downloaded. *)
Lemma collect1_classify_inputs sites :
  Forall (fun ev => match ev with
                    | Classify x => exists lnk raw,
                        In lnk (downloads (fst (collect1 L sites))) /\
                        newspaper L lnk = Ok raw /\ x = py_slice_to 512 raw
                    | _ => True
                    end) (fst (collect1 L sites)).
Proof.
  induction sites as [|[o u] rest IH]; [constructor|].
  rewrite collect1_events.
  pose proof (extract_articles_no_classify u 10) as Hn.
  pose proof (extract_articles_texts u 10) as Ht.
  destruct (snd (extract_articles L u 10)) as [texts|e].
  - rewrite !downloads_app. apply Forall_app. split; [|apply Forall_app; split].
    + eapply Forall_impl; [|exact Hn]. intros [] H; auto; contradiction.
    + pose proof (classify_loop_inputs o texts) as Hc.
      eapply Forall_impl; [|exact Hc]. intros [] H; auto.
      destruct H as [t [Hin ->]]. rewrite Forall_forall in Ht.
      destruct (Ht t Hin) as [lnk [raw [Hd [Hr ->]]]].
      exists lnk, raw. split; [apply in_or_app; left; exact Hd|].
      split; [exact Hr|]. apply slice_slice. lia.
    + eapply Forall_impl; [|exact IH]. intros [] H; auto.
      destruct H as [lnk [raw [Hd H]]]. exists lnk, raw. split; [|exact H].
      apply in_or_app. right. apply in_or_app. right. exact Hd.
  - eapply Forall_impl; [|exact Hn]. intros [] H; auto; contradiction.
Qed.

(** C7. Classifier-strategy input ceiling: in a run of
    ProjectCodeTest1.py, every text handed to the classifier is at most 512
    characters long, and it is the first 512 characters of the text
    newspaper extracted from an article the run downloaded. *)
Theorem classifier_input_ceiling (sites : list (string * string)) :
  Forall (fun ev => match ev with
                    | Classify x =>
                        py_len x <= 512 /\
                        exists lnk raw,
                          In lnk (downloads (fst (collect1 L sites))) /\
                          newspaper L lnk = Ok raw /\ x = py_slice_to 512 raw
                    | _ => True
                    end) (fst (collect1 L sites)).
Proof.
  eapply Forall_impl; [|apply collect1_classify_inputs].
  intros [] H; auto. destruct H as [lnk [raw [Hd [Hr ->]]]].
  split; [rewrite slice_length; lia|eauto].
Qed.

(** C8. Truncation exactness: cutting a text to a bound [B] gives exactly
    [B] characters when the text is longer and leaves it unchanged
    otherwise; the cut is a prefix of the text that ends at a character
    boundary, with no adjustment to words; the texts produced by
    [extract_articles] are the extracted texts cut this way at
    [B = 1000].  Lengths count characters, not bytes. *)
Theorem truncation_exact (B : nat) (s : string) (url : string) (max : nat) :
  (B < py_len s -> py_len (py_slice_to B s) = B) /\
  (py_len s <= B -> py_slice_to B s = s) /\
  (exists rest, s = py_slice_to B s ++ rest /\
                match rest with
                | EmptyString => True
                | String c _ => is_cont c = false
                end) /\
  match snd (extract_articles L url max) with
  | Ok texts => Forall (fun t => exists lnk raw,
                          newspaper L lnk = Ok raw /\ t = py_slice_to 1000 raw)
                       texts
  | Raise _ => True
  end.
Proof.
  split; [|split; [|split]].
  - intros H. rewrite slice_length. lia.
  - apply slice_id.
  - apply slice_prefix.
  - pose proof (extract_articles_texts url max) as H.
    destruct (snd (extract_articles L url max)); [|exact I].
    eapply Forall_impl; [|exact H]. intros t [lnk [raw [_ Hr]]]. eauto.
Qed.

Lemma collect1_rows sites rows :
  snd (collect1 L sites) = Ok rows ->
  Forall (fun r => (exists lnk raw, newspaper L lnk = Ok raw /\
                                    r1_text r = py_slice_to 1000 raw) /\
                   classifier L (py_slice_to 512 (r1_text r))
                   = Ok (r1_label r, r1_score r)) rows.
Proof.
  revert rows.
  induction sites as [|[outlet url] rest IH]; simpl; intros rows H.
  - injection H as <-. constructor.
  - apply bind_ok in H as [texts [Ht H]].
    apply bind_ok in H as [rs [Hr H]].
    apply bind_ok in H as [more [Hm H]].
    simpl in H. injection H as <-.
    apply Forall_app. split; [|exact (IH more Hm)].
    pose proof (extract_articles_texts url 10) as Et. rewrite Ht in Et.
    pose proof (classify_loop_rows outlet texts) as Er. rewrite Hr in Er.
    rewrite Forall_forall in Et, Er |- *. intros r Hin.
    destruct (Er r Hin) as [Hti [_ Hc]]. split; [|exact Hc].
    destruct (Et _ Hti) as [lnk [raw [_ Hn]]]. eauto.
Qed.

(** C10. In ProjectCodeTest1.py every stored row keeps the extracted text
    cut to 1000 characters, while its label and confidence are the
    classifier's answer on the first 512 characters of that text; so two
    rows whose texts agree on their first 512 characters carry the same
    label and the same score. *)
Theorem classifier_label_from_prefix (sites : list (string * string))
    (rows : list (Row1 Score)) (H : snd (collect1 L sites) = Ok rows) :
  Forall (fun r => exists lnk raw,
                   newspaper L lnk = Ok raw /\
                   r1_text r = py_slice_to 1000 raw /\
                   classifier L (py_slice_to 512 raw)
                   = Ok (r1_label r, r1_score r)) rows /\
  (forall r r', In r rows -> In r' rows ->
   py_slice_to 512 (r1_text r) = py_slice_to 512 (r1_text r') ->
   r1_label r = r1_label r' /\ r1_score r = r1_score r').
Proof.
  pose proof (collect1_rows sites rows H) as Hr.
  rewrite Forall_forall in Hr. split.
  - rewrite Forall_forall. intros r Hin.
    destruct (Hr r Hin) as [[lnk [raw [Hn Ht]]] Hc].
    exists lnk, raw. split; [exact Hn|]. split; [exact Ht|].
    rewrite Ht, slice_slice in Hc by lia. exact Hc.
  - intros r r' Hin Hin' Heq.
    destruct (Hr r Hin) as [_ Hc]. destruct (Hr r' Hin') as [_ Hc'].
    rewrite Heq, Hc' in Hc. injection Hc as -> ->. auto.
Qed.

Lemma bind_raise {A B} (m : M A) (f : A -> M B) :
  is_ok (snd m) = false ->
  fst (bind m f) = fst m /\ is_ok (snd (bind m f)) = false.
Proof. rewrite bind_eq. destruct (snd m); [discriminate|auto]. Qed.

Lemma bind_raise_r {A B} (m : M A) (f : A -> M B) :
  (forall a, is_ok (snd (f a)) = false) -> is_ok (snd (bind m f)) = false.
Proof. intros Hf. rewrite bind_eq. destruct (snd m); simpl; auto. Qed.

Lemma collect1_stops (pre post : list (string * string)) (o u : string) :
  is_ok (snd (extract_articles L u 10)) = false ->
  collect1 L (app pre ((o, u) :: post)) = collect1 L (app pre [(o, u)]) /\
  is_ok (snd (collect1 L (app pre [(o, u)]))) = false.
Proof.
  intros Hu. induction pre as [|[o' u'] pre [IHe IHr]]; simpl.
  - rewrite !bind_eq. destruct (snd (extract_articles L u 10));
      [discriminate|auto].
  - rewrite IHe. split; [reflexivity|].
    apply bind_raise_r. intros texts. apply bind_raise_r. intros rows.
    rewrite bind_eq. destruct (snd (collect1 L (app pre [(o, u)])));
      [discriminate|reflexivity].
Qed.

Lemma insert_key_perm k ks : Permutation (insert_key k ks) (k :: ks).
Proof.
  induction ks as [|k' ks IH]; simpl; [reflexivity|].
  destruct (String.leb k k'); [reflexivity|].
  rewrite IH. apply perm_swap.
Qed.

Lemma sort_keys_perm ks : Permutation (sort_keys ks) ks.
Proof.
  induction ks as [|k ks IH]; simpl; [reflexivity|].
  rewrite insert_key_perm, IH. reflexivity.
Qed.

Lemma collect_sources fetch header srcs recs :
  snd (collect fetch header srcs) = Ok recs ->
  Forall (fun r => In (source r) (map fst srcs)) recs.
Proof.
  revert recs.
  induction srcs as [|[src url] rest IH]; cbn [collect]; intros recs H.
  - injection H as <-. constructor.
  - apply bind_ok in H as [[] [_ H]].
    apply bind_ok in H as [arts [_ H]].
    apply bind_ok in H as [more [Hm H]].
    simpl in H. injection H as <-.
    apply Forall_app. split.
    + apply Forall_map, Forall_forall. intros a _. left. reflexivity.
    + eapply Forall_impl; [|exact (IH _ Hm)]. intros r Hr. right. exact Hr.
Qed.

Lemma bind_snd {A B} (m1 m2 : M A) (k : A -> M B) :
  snd m1 = snd m2 -> snd (bind m1 k) = snd (bind m2 k).
Proof. intros H. rewrite !bind_eq, H. destruct (snd m2); reflexivity. Qed.

Lemma bind_snd_k {A B} (m : M A) (k1 k2 : A -> M B) :
  (forall a, snd (k1 a) = snd (k2 a)) -> snd (bind m k1) = snd (bind m k2).
Proof. intros H. rewrite !bind_eq. destruct (snd m); simpl; auto. Qed.

(** A source whose fetch returns no article leaves the collected records
    as they are without it. *)
Lemma collect_skip fetch header (pre post : list (string * string)) s u evs :
  fetch u = (evs, Ok []) ->
  snd (collect fetch header (app pre ((s, u) :: post)))
  = snd (collect fetch header (app pre post)).
Proof.
  intros Hu. induction pre as [|[s' u'] pre IH]; cbn [app collect].
  - rewrite bind_eq. cbn [fst snd emit]. rewrite bind_eq, Hu. cbn [fst snd].
    rewrite bind_eq. destruct (snd (collect fetch header post)); reflexivity.
  - apply bind_snd_k. intros _. apply bind_snd_k. intros arts.
    apply bind_snd. exact IH.
Qed.

Lemma fetch_articles_pro1_empty url max :
  parse_feed L url = [] -> fetch_articles_pro1 L url max = ([Get url], Ok []).
Proof.
  intros H. unfold fetch_articles_pro1, fetch_loop_pro1. rewrite H, firstn_nil.
  reflexivity.
Qed.

Lemma fetch_articles_test2_empty url max :
  parse_feed L url = [] -> fetch_articles_test2 L url max = ([Get url], Ok []).
Proof.
  intros H. unfold fetch_articles_test2, fetch_loop_test2. rewrite H, firstn_nil.
  reflexivity.
Qed.

(** C1 (as the code has it).  In ProjectCodeTest1.py a failure retrieving
    an outlet's listing page is not caught: the run stops at that outlet
    with the exception and the outlets after it are never processed.  In
    the feed scripts feedparser does not raise: an unreachable feed gives
    no entries, so its outlet contributes no article, the other outlets
    are processed, the outcome of the run is that of the run without it,
    and pro1.py's aggregate has no entry for it. *)
Theorem listing_failure_aborts_run (pre post : list (string * string))
    (o u e : string)
    (Hlisting : get_listing L u = Raise e) (Hfeed : parse_feed L u = []) :
  collect1 L (app pre ((o, u) :: post)) = collect1 L (app pre [(o, u)]) /\
  is_ok (snd (collect1 L (app pre [(o, u)]))) = false /\
  snd (collect_pro1 L (app pre ((o, u) :: post)))
    = snd (collect_pro1 L (app pre post)) /\
  snd (collect_test2 L (app pre ((o, u) :: post)))
    = snd (collect_test2 L (app pre post)) /\
  snd (main_pro1 L (app pre ((o, u) :: post)))
    = snd (main_pro1 L (app pre post)) /\
  snd (main_test2 L (app pre ((o, u) :: post)))
    = snd (main_test2 L (app pre post)) /\
  (~ In o (map fst (app pre post)) ->
   match snd (main_pro1 L (app pre ((o, u) :: post))) with
   | Ok (groups, _) => ~ In o (map fst groups)
   | Raise _ => True
   end).
Proof.
  assert (H1 : is_ok (snd (extract_articles L u 10)) = false)
    by (rewrite extract_articles_eq, Hlisting; reflexivity).
  destruct (collect1_stops pre post o u H1) as [E1 R1].
  assert (Cp : snd (collect_pro1 L (app pre ((o, u) :: post)))
               = snd (collect_pro1 L (app pre post))).
  { unfold collect_pro1. apply (collect_skip _ _ pre post o u [Get u]).
    exact (fetch_articles_pro1_empty u 20 Hfeed). }
  assert (Ct : snd (collect_test2 L (app pre ((o, u) :: post)))
               = snd (collect_test2 L (app pre post))).
  { unfold collect_test2. apply (collect_skip _ _ pre post o u [Get u]).
    exact (fetch_articles_test2_empty u 10 Hfeed). }
  assert (Mp : snd (main_pro1 L (app pre ((o, u) :: post)))
               = snd (main_pro1 L (app pre post)))
    by (unfold main_pro1; apply bind_snd; exact Cp).
  assert (Mt : snd (main_test2 L (app pre ((o, u) :: post)))
               = snd (main_test2 L (app pre post)))
    by (unfold main_test2; apply bind_snd; exact Ct).
  do 6 (split; [assumption|]).
  intros Hno. rewrite Mp.
  destruct (snd (main_pro1 L (app pre post))) as [[groups b]|] eqn:E; [|exact I].
  unfold main_pro1 in E.
  apply bind_ok in E as [records [Hr E]].
  apply bind_ok in E as [sents [_ E]].
  cbv zeta in E. apply bind_ok in E as [[] [_ E]].
  apply bind_ok in E as [sp [_ E]].
  apply bind_ok in E as [[] [_ E]].
  simpl in E. injection E as <- _.
  intros Hin. apply Hno.
  unfold groupby_source in Hin. rewrite map_map in Hin. simpl in Hin.
  rewrite map_id in Hin.
  apply (Permutation_in _ (sort_keys_perm _)), nodup_In, in_map_iff in Hin
    as [[k v] [Hk Hkv]]. simpl in Hk. subst k.
  apply in_combine_l, in_map_iff in Hkv as [r [Hs Hr']].
  pose proof (collect_sources _ _ _ _ Hr) as Hsrc.
  rewrite Forall_forall in Hsrc. rewrite <- Hs. exact (Hsrc r Hr').
Qed.

(** C2 (as the code has it). [df.groupby('source')] has one key per
    source that has at least one row, each once and each with a non-empty
    sequence of values; a source without rows has no entry. *)
Theorem aggregate_keys (rows : list (string * Score)) :
  (forall k, In k (map fst (groupby_source rows)) <-> In k (map fst rows)) /\
  NoDup (map fst (groupby_source rows)) /\
  Forall (fun g => snd g <> []) (groupby_source rows).
Proof.
  unfold groupby_source. rewrite map_map. simpl. rewrite map_id.
  pose proof (sort_keys_perm (nodup string_dec (map fst rows))) as P.
  split; [|split].
  - intros k. split; intros Hk.
    + apply (Permutation_in _ P), nodup_In in Hk. exact Hk.
    + apply (Permutation_in _ (Permutation_sym P)), nodup_In. exact Hk.
  - apply (Permutation_NoDup (Permutation_sym P)), NoDup_nodup.
  - apply Forall_map, Forall_forall. intros k Hk. simpl.
    apply (Permutation_in _ P), nodup_In, in_map_iff in Hk as [r [<- Hr]].
    intros Hnil. apply map_eq_nil in Hnil.
    assert (Hf : In r (filter (fun r' => String.eqb (fst r') (fst r)) rows)).
    { apply filter_In. split; [exact Hr|apply String.eqb_refl]. }
    rewrite Hnil in Hf. contradiction.
Qed.

Lemma map_fst_combine {A B} (xs : list A) (ys : list B) :
  List.length xs = List.length ys -> map fst (combine xs ys) = xs.
Proof.
  revert ys. induction xs as [|x xs IH]; intros [|y ys] H; simpl in *;
    try discriminate; auto.
  f_equal. apply IH. lia.
Qed.

Lemma mapM_length {A B} (f : A -> M B) xs ys :
  snd (mapM f xs) = Ok ys -> List.length ys = List.length xs.
Proof.
  revert ys. induction xs as [|x xs IH]; simpl; intros ys H.
  - injection H as <-. reflexivity.
  - apply bind_ok in H as [y [_ H]]. apply bind_ok in H as [ys' [H' H]].
    simpl in H. injection H as <-. simpl. f_equal. exact (IH _ H').
Qed.

Lemma mapM_raise {A B} (f : A -> M B) xs x :
  In x xs -> is_ok (snd (f x)) = false -> is_ok (snd (mapM f xs)) = false.
Proof.
  intros Hin Hx. induction xs as [|y xs IH]; simpl in *; [contradiction|].
  rewrite bind_eq.
  destruct Hin as [->|Hin].
  - destruct (snd (f x)); [discriminate|reflexivity].
  - destruct (snd (f y)); [|reflexivity].
    simpl. rewrite bind_eq. specialize (IH Hin).
    destruct (snd (mapM f xs)); [discriminate|reflexivity].
Qed.

Lemma score_column_length records sents :
  snd (score_column L records) = Ok sents ->
  List.length sents = List.length records.
Proof.
  destruct records as [|r rs]; [discriminate|].
  intros H. exact (mapM_length _ (r :: rs) sents H).
Qed.

(** C3 (as the code has it). pro1.py checks nothing before the ANOVA:
    once the articles are scored, [f_oneway] is called on the groups of
    [df.groupby('source')] whatever their number.  The groups are the
    sources with at least one scored article, each non-empty: a source
    without articles is not part of the comparison input. *)
Theorem anova_called_unconditionally (srcs : list (string * string))
    (records : list Rec) (sents : list Score)
    (Hr : snd (collect_pro1 L srcs) = Ok records)
    (Hs : snd (score_column L records) = Ok sents) :
  In (FOneway (map (fun g => List.length (snd g))
                   (groupby_source (combine (map source records) sents))))
     (fst (main_pro1 L srcs)) /\
  (forall k, In k (map fst (groupby_source (combine (map source records) sents)))
             <-> In k (map source records)) /\
  Forall (fun g => snd g <> []) (groupby_source (combine (map source records) sents)).
Proof.
  destruct (aggregate_keys (combine (map source records) sents))
    as [Hk [_ Hne]].
  rewrite map_fst_combine in Hk
    by (rewrite length_map; symmetry; exact (score_column_length _ _ Hs)).
  split; [|split; assumption].
  unfold main_pro1. rewrite bind_eq, Hr. cbn [fst snd].
  rewrite bind_eq, Hs. cbn [fst snd]. rewrite bind_eq. cbn [fst snd emit].
  apply in_or_app. right. apply in_or_app. right. left. reflexivity.
Qed.

Lemma art_pro1_raise e l ex :
  art_pro1 L e l = Raise ex ->
  newspaper L l = Raise ex \/ title e = None \/ published e = None.
Proof.
  unfold art_pro1. intros H. destruct (newspaper L l); [|left; injection H as ->; reflexivity].
  destruct (title e); [|right; left; reflexivity].
  destruct (published e); [simpl in H; discriminate|right; right; reflexivity].
Qed.

Lemma art_test2_raise e l ex :
  art_test2 L e l = Raise ex ->
  get_paragraphs L l = Raise ex \/ title e = None \/ published e = None.
Proof.
  unfold art_test2. intros H. destruct (get_paragraphs L l); [|left; injection H as ->; reflexivity].
  destruct (title e); [|right; left; reflexivity].
  destruct (published e); [simpl in H; discriminate|right; right; reflexivity].
Qed.

(** C4 (as the code has it).  Extraction drops exactly the articles whose
    processing raised: in ProjectCodeTest1.py a failed retrieval or
    parse; in the feed scripts also an entry without a title or a
    publication date, which raises after the download.  An extracted text
    is kept whatever it is, the empty text included, and every kept text
    of ProjectCodeTest1.py is handed to the classifier.  An entry without
    a link raises again in the handler and ends the feed loop. *)
Theorem extraction_keeps_empty_text (links : list string)
    (entries entries' : list Entry) (e' : Entry) (outlet : string)
    (texts : list string)
    (Hlinks : Forall (fun e => link e <> None) entries)
    (Hin' : In e' entries') (Hnolink : link e' = None) :
  snd (extract_loop L links) =
    Ok (flat_map (fun lnk => match newspaper L lnk with
                             | Ok t => [py_slice_to 1000 t]
                             | Raise _ => []
                             end) links) /\
  snd (fetch_loop_pro1 L entries) =
    Ok (flat_map (fun e => match link e with
                           | Some l => match art_pro1 L e l with
                                       | Ok a => [a]
                                       | Raise _ => []
                                       end
                           | None => []
                           end) entries) /\
  snd (fetch_loop_test2 L entries) =
    Ok (flat_map (fun e => match link e with
                           | Some l => match art_test2 L e l with
                                       | Ok a => [a]
                                       | Raise _ => []
                                       end
                           | None => []
                           end) entries) /\
  (forall e l t, newspaper L l = Ok t -> title e <> None -> published e <> None ->
   exists a, art_pro1 L e l = Ok a /\ a_text a = t) /\
  (forall e l ex, art_pro1 L e l = Raise ex ->
   newspaper L l = Raise ex \/ title e = None \/ published e = None) /\
  (forall e l ps, get_paragraphs L l = Ok ps -> title e <> None ->
   published e <> None ->
   exists a, art_test2 L e l = Ok a /\ a_text a = String.concat " " ps) /\
  (forall e l ex, art_test2 L e l = Raise ex ->
   get_paragraphs L l = Raise ex \/ title e = None \/ published e = None) /\
  is_ok (snd (fetch_loop_pro1 L entries')) = false /\
  is_ok (snd (fetch_loop_test2 L entries')) = false /\
  Forall (fun t => In (Classify (py_slice_to 512 t))
                      (fst (classify_loop L outlet texts))) texts.
Proof.
  split; [rewrite extract_loop_eq; reflexivity|].
  split; [rewrite (fetch_loop_pro1_links entries Hlinks); reflexivity|].
  split; [rewrite (fetch_loop_test2_links entries Hlinks); reflexivity|].
  split.
  { intros e l t Hn Ht Hp. unfold art_pro1. rewrite Hn.
    destruct (title e); [|contradiction]. destruct (published e); [|contradiction].
    eexists. split; reflexivity. }
  split; [exact art_pro1_raise|].
  split.
  { intros e l ps Hn Ht Hp. unfold art_test2. rewrite Hn.
    destruct (title e); [|contradiction]. destruct (published e); [|contradiction].
    eexists. split; reflexivity. }
  split; [exact art_test2_raise|].
  split; [exact (loopM_raise _ _ e' Hin' (proj2 (fetch_one_pro1_nolink e' Hnolink)))|].
  split; [exact (loopM_raise _ _ e' Hin' (proj2 (fetch_one_test2_nolink e' Hnolink)))|].
  rewrite classify_loop_eq. simpl. apply Forall_forall. intros t Ht.
  apply in_flat_map. exists t. split; [exact Ht|left; reflexivity].
Qed.

Lemma mapM_resolve_absolute url xs :
  Forall (fun x => py_startswith "http" x = true) xs ->
  mapM (resolve url) xs = ([], Ok xs).
Proof.
  induction 1 as [|x xs Hx _ IH]; [reflexivity|].
  simpl. unfold resolve at 1. rewrite Hx. simpl. rewrite IH. reflexivity.
Qed.

Lemma NoDup_firstn_of {A} n (l : list A) : NoDup l -> NoDup (firstn n l).
Proof.
  intros H. rewrite <- (firstn_skipn n l) in H.
  exact (NoDup_app_remove_r _ _ H).
Qed.

Lemma In_firstn_of {A} n (l : list A) x : In x (firstn n l) -> In x l.
Proof.
  intros H. rewrite <- (firstn_skipn n l). apply in_or_app. left. exact H.
Qed.

Lemma fetch_loop_pro1_full entries :
  Forall (fun e => exists l t, link e = Some l /\ newspaper L l = Ok t /\
                               title e <> None /\ published e <> None) entries ->
  downloads (fst (fetch_loop_pro1 L entries)) = entry_links entries /\
  exists arts, snd (fetch_loop_pro1 L entries) = Ok arts /\
               List.length arts = List.length entries.
Proof.
  intros H.
  assert (Hl : Forall (fun e => link e <> None) entries).
  { eapply Forall_impl; [|exact H]. intros e [l [t [E _]]]. rewrite E. discriminate. }
  rewrite (fetch_loop_pro1_links entries Hl). cbn [fst snd]. split.
  - rewrite downloads_flat_map. unfold entry_links. apply flat_map_ext.
    intros e. apply fetch_one_pro1_downloads.
  - eexists. split; [reflexivity|]. clear Hl.
    induction H as [|e es [l [t [El [Hn [Ht Hp]]]]] _ IH]; [reflexivity|].
    cbn [flat_map]. rewrite length_app, IH, El. unfold art_pro1. rewrite Hn.
    destruct (title e); [|contradiction]. destruct (published e); [|contradiction].
    reflexivity.
Qed.

Lemma fetch_loop_test2_full entries :
  Forall (fun e => exists l ps, link e = Some l /\ get_paragraphs L l = Ok ps /\
                                title e <> None /\ published e <> None) entries ->
  downloads (fst (fetch_loop_test2 L entries)) = entry_links entries /\
  exists arts, snd (fetch_loop_test2 L entries) = Ok arts /\
               List.length arts = List.length entries.
Proof.
  intros H.
  assert (Hl : Forall (fun e => link e <> None) entries).
  { eapply Forall_impl; [|exact H]. intros e [l [t [E _]]]. rewrite E. discriminate. }
  rewrite (fetch_loop_test2_links entries Hl). cbn [fst snd]. split.
  - rewrite downloads_flat_map. unfold entry_links. apply flat_map_ext.
    intros e. apply fetch_one_test2_downloads.
  - eexists. split; [reflexivity|]. clear Hl.
    induction H as [|e es [l [ps [El [Hn [Ht Hp]]]]] _ IH]; [reflexivity|].
    cbn [flat_map]. rewrite length_app, IH, El. unfold art_test2. rewrite Hn.
    destruct (title e); [|contradiction]. destruct (published e); [|contradiction].
    reflexivity.
Qed.

(** C5 (as the code has it). Only the page-scrape variant deduplicates:
    [list(set(...))] leaves each matching href once, before any article is
    retrieved, so when the hrefs are absolute URLs no link is retrieved
    twice.  The feed variants do not deduplicate: when every entry has its
    fields and its retrieval succeeds, the links retrieved are the entries'
    links, once per occurrence, and there is one article per entry, so a
    link listed twice is retrieved twice and gives two articles. *)
Theorem dedup_page_scrape_only (Hset : set_semantics (set_list L))
    (hrefs : list string) (url : string) (max : nat) (entries : list Entry)
    (Hpro1 : Forall (fun e => exists l t, link e = Some l /\ newspaper L l = Ok t /\
                                          title e <> None /\ published e <> None)
                    entries)
    (Htest2 : Forall (fun e => exists l ps, link e = Some l /\
                                            get_paragraphs L l = Ok ps /\
                                            title e <> None /\ published e <> None)
                     entries) :
  NoDup (candidate_links L hrefs) /\
  (forall x, In x (candidate_links L hrefs) <->
             In x hrefs /\ py_contains "/politics/" x = true) /\
  (get_listing L url = Ok hrefs ->
   Forall (fun x => py_startswith "http" x = true) hrefs ->
   NoDup (downloads (fst (extract_articles L url max)))) /\
  (downloads (fst (fetch_loop_pro1 L entries)) = entry_links entries /\
   exists arts, snd (fetch_loop_pro1 L entries) = Ok arts /\
                List.length arts = List.length entries) /\
  (downloads (fst (fetch_loop_test2 L entries)) = entry_links entries /\
   exists arts, snd (fetch_loop_test2 L entries) = Ok arts /\
                List.length arts = List.length entries).
Proof.
  destruct (Hset (filter (py_contains "/politics/") hrefs)) as [Hnd Hin].
  fold (candidate_links L hrefs) in Hnd, Hin.
  split; [exact Hnd|]. split.
  { intros x. rewrite Hin. apply filter_In. }
  split; [|split; [exact (fetch_loop_pro1_full entries Hpro1)
                  |exact (fetch_loop_test2_full entries Htest2)]].
  intros Hl Habs.
  assert (Hc : Forall (fun x => py_startswith "http" x = true)
                      (firstn max (candidate_links L hrefs))).
  { rewrite Forall_forall in Habs |- *. intros x Hx.
    apply In_firstn_of, Hin, filter_In in Hx as [Hx _]. exact (Habs x Hx). }
  rewrite extract_articles_eq, Hl, (mapM_resolve_absolute url _ Hc).
  simpl. rewrite extract_loop_downloads.
  apply NoDup_firstn_of. exact Hnd.
Qed.

(** C6 (as the code has it).  In ProjectCodeTest1.py a classifier
    exception drops only that text, with a printed notice, and the loop
    goes on: the rows are the texts the classifier accepts, in order, and
    there is one notice per rejected text.  In the two VADER scripts,
    pro1.py and ProjectCodeTest2.py, the scorer is not guarded: an
    exception on one article ends the run. *)
Theorem scoring_error_isolation (outlet : string) (texts : list string)
    (srcs : list (string * string)) (records : list Rec) (r : Rec) (e : string)
    (Hc : snd (collect_pro1 L srcs) = Ok records) (Hin : In r records)
    (Hpol : polarity L (rec_text r) = Raise e)
    (srcs2 : list (string * string)) (records2 : list Rec) (r2 : Rec) (e2 : string)
    (Hc2 : snd (collect_test2 L srcs2) = Ok records2) (Hin2 : In r2 records2)
    (Hpol2 : polarity L (rec_text r2) = Raise e2) :
  match snd (classify_loop L outlet texts) with
  | Ok rows =>
      map r1_text rows
        = filter (fun t => is_ok (classifier L (py_slice_to 512 t))) texts /\
      List.length (notices (fst (classify_loop L outlet texts)))
        = List.length (filter (fun t => negb (is_ok (classifier L (py_slice_to 512 t))))
                              texts)
  | Raise _ => False
  end /\
  is_ok (snd (score_column L records)) = false /\
  is_ok (snd (main_pro1 L srcs)) = false /\
  is_ok (snd (score_column L records2)) = false /\
  is_ok (snd (main_test2 L srcs2)) = false.
Proof.
  assert (Hs : is_ok (snd (score_column L records)) = false).
  { destruct records as [|r0 rs]; [contradiction|].
    apply (mapM_raise _ (r0 :: rs) r Hin). rewrite bind_eq. simpl.
    rewrite Hpol. reflexivity. }
  assert (Hs2 : is_ok (snd (score_column L records2)) = false).
  { destruct records2 as [|r0 rs]; [contradiction|].
    apply (mapM_raise _ (r0 :: rs) r2 Hin2). rewrite bind_eq. simpl.
    rewrite Hpol2. reflexivity. }
  split; [|split; [exact Hs|split; [|split; [exact Hs2|]]]].
  - rewrite classify_loop_eq. cbn [fst snd].
    induction texts as [|t ts [IH1 IH2]]; [split; reflexivity|].
    cbn [flat_map filter]. unfold notices in *.
    destruct (classifier L (py_slice_to 512 t)); cbn [is_ok negb]; split.
    all: first [rewrite map_app, IH1 | rewrite flat_map_app, length_app, IH2];
      reflexivity.
  - unfold main_pro1. rewrite bind_eq, Hc. cbn [fst snd].
    rewrite bind_eq. destruct (snd (score_column L records));
      [discriminate|reflexivity].
  - unfold main_test2. rewrite bind_eq, Hc2. cbn [fst snd].
    rewrite bind_eq. destruct (snd (score_column L records2));
      [discriminate|reflexivity].
Qed.

End Facts.

Lemma nodup_set_semantics : set_semantics (nodup string_dec).
Proof.
  intros xs. split; [apply NoDup_nodup|]. intros x. apply nodup_In.
Qed.

(** C1: with the CNN listing page unreachable the ProjectCodeTest1.py run
    ends with the exception, before the Fox News page is requested. *)
Lemma listing_failure_counterexample :
  is_ok (snd (collect1 (fx_libs "https://edition.cnn.com/politics") news_sites))
  = false /\
  ~ In (Get "https://www.foxnews.com/politics")
       (fst (collect1 (fx_libs "https://edition.cnn.com/politics") news_sites)).
Proof. vm_compute. split; [reflexivity|]. intuition discriminate. Qed.

(** C1: the CNN listing page and feed unreachable, the NYT outlet after
    it.  The page scrape stops; the feed scripts run as if CNN were not
    configured. *)
Lemma listing_failure_aborts_run_witness :
  let Lf := fx_libs "https://edition.cnn.com/politics" in
  let u := "https://edition.cnn.com/politics" in
  let post := [("NYT", "https://rss.nytimes.com/services/xml/rss/nyt/Politics.xml")] in
  get_listing Lf u = Raise "ConnectionError" /\
  parse_feed Lf u = [] /\
  (collect1 Lf (app [] (("CNN", u) :: post)) = collect1 Lf (app [] [("CNN", u)]) /\
   is_ok (snd (collect1 Lf (app [] [("CNN", u)]))) = false /\
   snd (collect_pro1 Lf (app [] (("CNN", u) :: post)))
     = snd (collect_pro1 Lf (app [] post)) /\
   snd (collect_test2 Lf (app [] (("CNN", u) :: post)))
     = snd (collect_test2 Lf (app [] post)) /\
   snd (main_pro1 Lf (app [] (("CNN", u) :: post)))
     = snd (main_pro1 Lf (app [] post)) /\
   snd (main_test2 Lf (app [] (("CNN", u) :: post)))
     = snd (main_test2 Lf (app [] post)) /\
   (~ In "CNN" (map fst (app [] post)) ->
    match snd (main_pro1 Lf (app [] (("CNN", u) :: post))) with
    | Ok (groups, _) => ~ In "CNN" (map fst groups)
    | Raise _ => True
    end)).
Proof.
  cbv zeta.
  split; [reflexivity|]. split; [reflexivity|].
  apply (listing_failure_aborts_run (fx_libs "https://edition.cnn.com/politics")
           [] [("NYT", "https://rss.nytimes.com/services/xml/rss/nyt/Politics.xml")]
           "CNN" "https://edition.cnn.com/politics" "ConnectionError");
    reflexivity.
Defined.

(** C2: the NYT feed yields no article, and the aggregate has no NYT key. *)
Lemma aggregate_missing_outlet_counterexample :
  match snd (main_pro1 (fx_libs "") feeds) with
  | Ok (groups, _) => ~ In "NYT" (map fst groups)
  | Raise _ => False
  end.
Proof. vm_compute. intuition discriminate. Qed.

(** C3: with a single source, pro1.py still calls [f_oneway], on one
    group. *)
Lemma anova_single_group_counterexample :
  In (FOneway [1])
     (fst (main_pro1 (fx_libs "")
             [("CNN", "http://rss.cnn.com/rss/cnn_allpolitics.rss")])).
Proof. vm_compute. repeat first [left; reflexivity | right]. Qed.

Lemma anova_called_unconditionally_witness :
  snd (collect_pro1 (fx_libs "")
         [("CNN", "http://rss.cnn.com/rss/cnn_allpolitics.rss")])
  = Ok [mkRec "CNN" "Story 1" "Story at https://news.example/politics/1"
              "2025-01-01"] /\
  snd (score_column (fx_libs "")
         [mkRec "CNN" "Story 1" "Story at https://news.example/politics/1"
                "2025-01-01"]) = Ok [1] /\
  (In (FOneway (map (fun g => List.length (snd g))
                    (groupby_source
                       (combine (map source [mkRec "CNN" "Story 1"
                          "Story at https://news.example/politics/1"
                          "2025-01-01"]) [1]))))
      (fst (main_pro1 (fx_libs "")
              [("CNN", "http://rss.cnn.com/rss/cnn_allpolitics.rss")])) /\
   (forall k, In k (map fst (groupby_source
                       (combine (map source [mkRec "CNN" "Story 1"
                          "Story at https://news.example/politics/1"
                          "2025-01-01"]) [1])))
              <-> In k (map source [mkRec "CNN" "Story 1"
                          "Story at https://news.example/politics/1"
                          "2025-01-01"])) /\
   Forall (fun g => snd g <> [])
     (groupby_source (combine (map source [mkRec "CNN" "Story 1"
                          "Story at https://news.example/politics/1"
                          "2025-01-01"]) [1]))).
Proof.
  split; [vm_compute; reflexivity|]. split; [vm_compute; reflexivity|].
  apply anova_called_unconditionally; vm_compute; reflexivity.
Defined.

(** C4: an article whose extracted text is empty is kept and classified. *)
Lemma empty_text_counterexample :
  In (Classify "")
     (fst (collect1 (fx_libs "") [("Empty", "https://empty.example/politics")])) /\
  snd (collect1 (fx_libs "") [("Empty", "https://empty.example/politics")])
  = Ok [mkRow1 "Empty" "" "POSITIVE" 1].
Proof.
  vm_compute. split; [repeat first [left; reflexivity | right]|reflexivity].
Qed.

(** C4: the feed at [nolink.example] has an item without a link; the
    loop over it raises, while a feed whose items all have links does not. *)
Lemma extraction_keeps_empty_text_witness :
  let Lf := fx_libs "" in
  let entries' := parse_feed Lf "http://nolink.example/feed" in
  let e' := mkEntry None (Some "Story 2") (Some "2025-01-01") in
  Forall (fun e => link e <> None) [fx_entry "1"] /\
  In e' entries' /\ link e' = None /\
  (snd (fetch_loop_pro1 Lf [fx_entry "1"]) =
     Ok (flat_map (fun e => match link e with
                            | Some l => match art_pro1 Lf e l with
                                        | Ok a => [a]
                                        | Raise _ => []
                                        end
                            | None => []
                            end) [fx_entry "1"]) /\
   is_ok (snd (fetch_loop_pro1 Lf entries')) = false /\
   is_ok (snd (fetch_loop_test2 Lf entries')) = false).
Proof.
  cbv zeta.
  assert (H1 : Forall (fun e => link e <> None) [fx_entry "1"])
    by (constructor; [intros H; discriminate H|constructor]).
  assert (H2 : In (mkEntry None (Some "Story 2") (Some "2025-01-01"))
                  (parse_feed (fx_libs "") "http://nolink.example/feed"))
    by (vm_compute; right; left; reflexivity).
  split; [exact H1|]. split; [exact H2|]. split; [reflexivity|].
  destruct (extraction_keeps_empty_text (fx_libs "") [] [fx_entry "1"]
              (parse_feed (fx_libs "") "http://nolink.example/feed")
              (mkEntry None (Some "Story 2") (Some "2025-01-01")) "CNN" [""]
              H1 H2 eq_refl)
    as [_ [Hp [_ [_ [_ [_ [_ [Hr1 [Hr2 _]]]]]]]]].
  split; [exact Hp|]. split; [exact Hr1|exact Hr2].
Defined.

(** C5: a feed listing the same link twice; pro1.py retrieves it twice and
    keeps two articles. *)
Lemma feed_duplicate_counterexample :
  downloads (fst (fetch_articles_pro1 (fx_libs "") "http://dup.example/feed" 20))
  = ["https://news.example/politics/1"; "https://news.example/politics/1"] /\
  match snd (fetch_articles_pro1 (fx_libs "") "http://dup.example/feed" 20) with
  | Ok arts => List.length arts = 2
  | Raise _ => False
  end.
Proof. vm_compute. split; reflexivity. Qed.

Lemma dedup_page_scrape_only_witness :
  let Lf := fx_libs "" in
  let entries := [fx_entry "1"; fx_entry "1"] in
  set_semantics (set_list Lf) /\
  Forall (fun e => exists l t, link e = Some l /\ newspaper Lf l = Ok t /\
                               title e <> None /\ published e <> None) entries /\
  Forall (fun e => exists l ps, link e = Some l /\ get_paragraphs Lf l = Ok ps /\
                                title e <> None /\ published e <> None) entries /\
  entry_links entries
  = ["https://news.example/politics/1"; "https://news.example/politics/1"] /\
  (downloads (fst (fetch_loop_pro1 Lf entries)) = entry_links entries /\
   exists arts, snd (fetch_loop_pro1 Lf entries) = Ok arts /\
                List.length arts = List.length entries) /\
  (downloads (fst (fetch_loop_test2 Lf entries)) = entry_links entries /\
   exists arts, snd (fetch_loop_test2 Lf entries) = Ok arts /\
                List.length arts = List.length entries).
Proof.
  cbv zeta.
  assert (H1 : Forall (fun e => exists l t, link e = Some l /\
                          newspaper (fx_libs "") l = Ok t /\
                          title e <> None /\ published e <> None)
                      [fx_entry "1"; fx_entry "1"]).
  { repeat constructor; do 2 eexists;
      (split; [reflexivity|split; [reflexivity|split; intros H; discriminate H]]). }
  assert (H2 : Forall (fun e => exists l ps, link e = Some l /\
                          get_paragraphs (fx_libs "") l = Ok ps /\
                          title e <> None /\ published e <> None)
                      [fx_entry "1"; fx_entry "1"]).
  { repeat constructor; do 2 eexists;
      (split; [reflexivity|split; [reflexivity|split; intros H; discriminate H]]). }
  split; [exact nodup_set_semantics|]. split; [exact H1|]. split; [exact H2|].
  split; [reflexivity|].
  destruct (dedup_page_scrape_only (fx_libs "") nodup_set_semantics []
              "https://www.foxnews.com/politics" 10 [fx_entry "1"; fx_entry "1"]
              H1 H2) as [_ [_ [_ [Hp Ht]]]].
  split; [exact Hp|exact Ht].
Defined.

(** C6: VADER raises on the third of five articles; the pro1.py run ends
    with the exception instead of keeping four scored articles. *)
Lemma scoring_error_counterexample :
  is_ok (snd (main_pro1 (fx_libs "") [("CNN", "http://five.example/feed")]))
  = false.
Proof. vm_compute. reflexivity. Qed.

(** The classifier variant on five texts, the third rejected: four rows and
    one notice. *)
Example classify_five_texts :
  match snd (classify_loop (fx_libs "") "CNN"
               ["Story /1"; "Story /2"; "Story /3"; "Story /4"; "Story /5"]) with
  | Ok rows => List.length rows = 4
  | Raise _ => False
  end /\
  notices (fst (classify_loop (fx_libs "") "CNN"
               ["Story /1"; "Story /2"; "Story /3"; "Story /4"; "Story /5"]))
  = ["Error classifying text: RuntimeError"].
Proof. vm_compute. split; reflexivity. Qed.

Lemma scoring_error_isolation_witness :
  let srcs := [("CNN", "http://five.example/feed")] in
  let records :=
    map (fun n => mkRec "CNN" ("Story " ++ n)
                        ("Story at https://news.example/politics/" ++ n)
                        "2025-01-01") ["1"; "2"; "3"; "4"; "5"] in
  let r := mkRec "CNN" "Story 3" "Story at https://news.example/politics/3"
                 "2025-01-01" in
  let records2 :=
    map (fun n => mkRec "CNN" ("Story " ++ n)
                        ("Paragraph of https://news.example/politics/" ++ n)
                        "2025-01-01") ["1"; "2"; "3"; "4"; "5"] in
  let r2 := mkRec "CNN" "Story 3" "Paragraph of https://news.example/politics/3"
                  "2025-01-01" in
  let texts := map rec_text records in
  snd (collect_pro1 (fx_libs "") srcs) = Ok records /\
  In r records /\
  polarity (fx_libs "") (rec_text r) = Raise "ValueError" /\
  snd (collect_test2 (fx_libs "") srcs) = Ok records2 /\
  In r2 records2 /\
  polarity (fx_libs "") (rec_text r2) = Raise "ValueError" /\
  (match snd (classify_loop (fx_libs "") "CNN" texts) with
   | Ok rows =>
       map r1_text rows
         = filter (fun t => is_ok (classifier (fx_libs "") (py_slice_to 512 t)))
                  texts /\
       List.length (notices (fst (classify_loop (fx_libs "") "CNN" texts)))
         = List.length (filter (fun t => negb (is_ok (classifier (fx_libs "")
                                                        (py_slice_to 512 t))))
                               texts)
   | Raise _ => False
   end /\
   is_ok (snd (score_column (fx_libs "") records)) = false /\
   is_ok (snd (main_pro1 (fx_libs "") srcs)) = false /\
   is_ok (snd (score_column (fx_libs "") records2)) = false /\
   is_ok (snd (main_test2 (fx_libs "") srcs)) = false).
Proof.
  cbv zeta.
  split; [vm_compute; reflexivity|].
  split; [simpl; right; right; left; reflexivity|].
  split; [reflexivity|].
  split; [vm_compute; reflexivity|].
  split; [simpl; right; right; left; reflexivity|].
  split; [reflexivity|].
  eapply scoring_error_isolation;
    [vm_compute; reflexivity | simpl; right; right; left; reflexivity
    | reflexivity
    | vm_compute; reflexivity | simpl; right; right; left; reflexivity
    | reflexivity].
Defined.

Lemma classifier_label_from_prefix_witness :
  let sites := [("Fox News", "https://www.foxnews.com/politics")] in
  let rows := [mkRow1 "Fox News" "Story at https://www.foxnews.com/politics/b"
                      "POSITIVE" 1;
               mkRow1 "Fox News" "Story at https://www.foxnews.com/politics/a"
                      "POSITIVE" 1] in
  snd (collect1 (fx_libs "") sites) = Ok rows /\
  (Forall (fun r => exists lnk raw,
                    newspaper (fx_libs "") lnk = Ok raw /\
                    r1_text r = py_slice_to 1000 raw /\
                    classifier (fx_libs "") (py_slice_to 512 raw)
                    = Ok (r1_label r, r1_score r)) rows /\
   (forall r r', In r rows -> In r' rows ->
    py_slice_to 512 (r1_text r) = py_slice_to 512 (r1_text r') ->
    r1_label r = r1_label r' /\ r1_score r = r1_score r')).
Proof.
  cbv zeta.
  assert (H : snd (collect1 (fx_libs "")
                     [("Fox News", "https://www.foxnews.com/politics")])
              = Ok [mkRow1 "Fox News" "Story at https://www.foxnews.com/politics/b"
                           "POSITIVE" 1;
                    mkRow1 "Fox News" "Story at https://www.foxnews.com/politics/a"
                           "POSITIVE" 1])
    by (vm_compute; reflexivity).
  split; [exact H|].
  exact (classifier_label_from_prefix (fx_libs "") _ _ H).
Defined.

Example host_cnn : host_of "https://edition.cnn.com/politics" = Ok "edition.cnn.com".
Proof. reflexivity. Qed.

Example split_path : py_split "/" "a/b//c" = ["a"; "b"; ""; "c"].
Proof. reflexivity. Qed.

Example sort_sources : sort_keys ["NYT"; "CNN"; "Fox News"] = ["CNN"; "Fox News"; "NYT"].
Proof. reflexivity. Qed.

(** ['éab'[:2] == 'éa'] and [len('éab') == 3]: 'é' is two bytes, one
    character. *)
Example slice_code_points : py_slice_to 2 "éab" = "éa" /\ py_len "éab" = 3.
Proof. split; reflexivity. Qed.

(** ** Further properties of the scripts *)

Section Extras.

Context {Score : Type} (L : Libs Score).

Lemma str_app_assoc a b c : (a ++ b) ++ c = a ++ (b ++ c).
Proof. induction a as [|x a IH]; simpl; [reflexivity|]. rewrite IH. reflexivity. Qed.

Lemma str_app_nil a : a ++ "" = a.
Proof. induction a as [|x a IH]; simpl; [reflexivity|]. rewrite IH. reflexivity. Qed.

Lemma str_length_app a b :
  String.length (a ++ b) = String.length a + String.length b.
Proof. induction a as [|x a IH]; simpl; auto. Qed.

Lemma substring_app_drop a b m k :
  substring (String.length a + m) k (a ++ b) = substring m k b.
Proof. induction a as [|x a IH]; simpl; auto. Qed.

Lemma substring_app_take a b j :
  substring 0 (String.length a + j) (a ++ b) = a ++ substring 0 j b.
Proof. induction a as [|x a IH]; simpl; [reflexivity|]. rewrite IH. reflexivity. Qed.

Lemma substring_all b : substring 0 (String.length b) b = b.
Proof. induction b as [|x b IH]; simpl; [reflexivity|]. rewrite IH. reflexivity. Qed.

Lemma substring_zero n s : substring n 0 s = "".
Proof. revert s. induction n as [|n IH]; intros [|c s]; simpl; auto. Qed.

Lemma prefix_app a b : prefix a (a ++ b) = true.
Proof.
  apply (proj2 (prefix_correct _ _)).
  rewrite <- (Nat.add_0_r (String.length a)), substring_app_take,
    substring_zero, str_app_nil. reflexivity.
Qed.

Lemma index_at_prefix sub s :
  sub <> "" -> prefix sub s = true -> index 0 sub s = Some 0.
Proof.
  intros Hne Hp. destruct s as [|c s].
  - destruct sub; [contradiction|discriminate].
  - cbn [index]. rewrite Hp. reflexivity.
Qed.

Lemma prefix_head a s1 c x : prefix (String a s1) (String c x) = true -> c = a.
Proof.
  intros H. apply prefix_correct in H. simpl in H. injection H. auto.
Qed.

Lemma prefix_one a y : prefix (String a "") (String a y) = true.
Proof. apply (proj2 (prefix_correct _ _)). destruct y; reflexivity. Qed.

Lemma no_slash_cons c h :
  py_contains "/" (String c h) = false ->
  prefix "/" (String c h) = false /\ py_contains "/" h = false.
Proof.
  unfold py_contains. cbn [index]. intros H.
  destruct (prefix "/" (String c h)); [discriminate|].
  destruct (index 0 "/" h); [discriminate|]. auto.
Qed.

(** Before the first ['/'] of [h ++ s] there is no occurrence of a pattern
    starting with ['/']. *)
Lemma index_app_no_slash sep h s :
  py_contains "/" h = false ->
  index 0 (String "/"%char sep) (h ++ s)
  = option_map (Nat.add (String.length h)) (index 0 (String "/"%char sep) s).
Proof.
  induction h as [|c h IH]; intros Hh; cbn [String.append String.length index].
  - destruct (index 0 (String "/"%char sep) s); reflexivity.
  - apply no_slash_cons in Hh as [Hp Hh].
    destruct (prefix (String "/"%char sep) (String c (h ++ s))) eqn:E.
    + apply prefix_head in E. subst c. rewrite prefix_one in Hp. discriminate.
    + rewrite (IH Hh). destruct (index 0 (String "/"%char sep) s); reflexivity.
Qed.

Lemma py_contains_app sub a x :
  sub <> "" -> py_contains sub x = true -> py_contains sub (a ++ x) = true.
Proof.
  unfold py_contains. intros Hne Hx.
  destruct (index 0 sub x) as [m|] eqn:E; [|discriminate].
  apply index_correct1 in E.
  destruct (index 0 sub (a ++ x)) eqn:E'; [reflexivity|].
  exfalso. apply (index_correct3 0 (String.length a + m) sub (a ++ x) E' Hne);
    [lia|]. rewrite substring_app_drop. exact E.
Qed.

(** The first piece of [s.split(sep)]. *)
Lemma split_fuel_step f sep s i :
  index 0 sep s = Some i ->
  split_fuel (S f) sep s =
  substring 0 i s
    :: split_fuel f sep
         (substring (i + String.length sep) (String.length s - (i + String.length sep)) s).
Proof. intros H. simpl. rewrite H. reflexivity. Qed.

Lemma split_fuel_head f sep s :
  py_getitem (split_fuel (S f) sep s) 0 =
  Ok (match index 0 sep s with Some i => substring 0 i s | None => s end).
Proof. unfold py_getitem. simpl. destruct (index 0 sep s); reflexivity. Qed.

Lemma py_getitem_cons {A} (x : A) l n : py_getitem (x :: l) (S n) = py_getitem l n.
Proof. reflexivity. Qed.

Lemma substring_rest a b :
  substring (String.length a) (String.length (a ++ b) - String.length a) (a ++ b) = b.
Proof.
  rewrite str_length_app, Nat.add_sub_swap, Nat.sub_diag by lia. simpl.
  rewrite <- (Nat.add_0_r (String.length a)), substring_app_drop.
  apply substring_all.
Qed.

Lemma host_of_eq scheme h p :
  py_contains "/" scheme = false -> py_contains "/" h = false ->
  host_of (scheme ++ "//" ++ h ++ "/" ++ p) = Ok h.
Proof.
  intros Hs Hh. unfold host_of, py_split.
  set (R := h ++ "/" ++ p).
  assert (Hi : index 0 "//" (scheme ++ "//" ++ R) = Some (String.length scheme)).
  { rewrite (index_app_no_slash "/" scheme ("//" ++ R) Hs).
    rewrite (index_at_prefix "//" ("//" ++ R)); [|discriminate|apply prefix_app].
    simpl. f_equal. lia. }
  assert (Hl : exists f, String.length (scheme ++ "//" ++ R) = S f).
  { rewrite str_length_app. simpl. eauto. }
  destruct Hl as [f Hf]. rewrite Hf.
  rewrite (split_fuel_step (S f) _ _ _ Hi).
  replace (substring (String.length scheme + String.length "//")
             (String.length (scheme ++ "//" ++ R)
              - (String.length scheme + String.length "//"))
             (scheme ++ "//" ++ R)) with R.
  2:{ rewrite <- str_app_assoc.
      replace (String.length scheme + String.length "//")
        with (String.length (scheme ++ "//")) by (rewrite str_length_app; reflexivity).
      rewrite substring_rest. reflexivity. }
  rewrite py_getitem_cons, split_fuel_head.
  set (y := match index 0 "//" ("/" ++ p) with
            | Some j => substring 0 j ("/" ++ p)
            | None => "/" ++ p
            end).
  assert (Hpiece : match index 0 "//" R with
                   | Some i => substring 0 i R
                   | None => R
                   end = h ++ y).
  { unfold y, R. rewrite (index_app_no_slash "/" h ("/" ++ p) Hh).
    destruct (index 0 "//" ("/" ++ p)); simpl; [|reflexivity].
    apply substring_app_take. }
  rewrite Hpiece. cbv beta iota. rewrite split_fuel_head.
  rewrite (index_app_no_slash "" h y Hh).
  assert (Hy : y = "" \/ exists z, y = String "/"%char z).
  { unfold y. destruct (index 0 "//" ("/" ++ p)) as [[|j]|]; simpl; eauto. }
  destruct Hy as [-> | [z ->]].
  - simpl. apply f_equal, str_app_nil.
  - rewrite (index_at_prefix "/" (String "/"%char z)); [|discriminate|apply prefix_one].
    cbn [option_map].
    rewrite substring_app_take, substring_zero, str_app_nil. reflexivity.
Qed.

Lemma mapM_pure {A B} (g : A -> M B) (f : A -> B) xs :
  (forall x, In x xs -> g x = ([], Ok (f x))) ->
  mapM g xs = ([], Ok (map f xs)).
Proof.
  induction xs as [|x xs IH]; intros H; [reflexivity|].
  simpl. rewrite (H x (or_introl eq_refl)). simpl.
  rewrite IH by (intros y Hy; apply H; right; exact Hy). reflexivity.
Qed.

Lemma mapM_resolve_suffix url xs ys :
  snd (mapM (resolve url) xs) = Ok ys ->
  Forall (fun y => exists x pre, In x xs /\ y = pre ++ x) ys.
Proof.
  revert ys. induction xs as [|x xs IH]; simpl; intros ys H.
  - injection H as <-. constructor.
  - apply bind_ok in H as [y [Hy H]]. apply bind_ok in H as [ys' [Hys H]].
    simpl in H. injection H as <-. constructor.
    + exists x. unfold resolve in Hy.
      destruct (py_startswith "http" x).
      * injection Hy as <-. exists "". auto.
      * rewrite bind_eq in Hy. simpl in Hy.
        destruct (host_of url) as [h|e]; [|discriminate].
        injection Hy as <-. exists ("https://" ++ h).
        rewrite str_app_assoc. auto.
    + eapply Forall_impl; [|exact (IH ys' Hys)].
      intros z [x' [pre [Hx' ->]]]. exists x', pre. auto.
Qed.

(** ProjectCodeTest1.py, [extract_articles]: for a listing URL
    [scheme//host/path], the articles retrieved are the first
    [max_articles] candidate links, the relative ones prefixed with
    [https://host]. *)
Theorem extract_articles_resolved_links (scheme h p : string)
    (hrefs : list string) (max : nat)
    (Hs : py_contains "/" scheme = false) (Hh : py_contains "/" h = false)
    (Hl : get_listing L (scheme ++ "//" ++ h ++ "/" ++ p) = Ok hrefs) :
  downloads (fst (extract_articles L (scheme ++ "//" ++ h ++ "/" ++ p) max))
  = map (fun x => if py_startswith "http" x then x else "https://" ++ h ++ x)
        (firstn max (candidate_links L hrefs)).
Proof.
  rewrite extract_articles_eq, Hl.
  rewrite (mapM_pure _ (fun x => if py_startswith "http" x then x
                                 else "https://" ++ h ++ x)).
  - simpl. apply extract_loop_downloads.
  - intros x _. unfold resolve.
    destruct (py_startswith "http" x); [reflexivity|].
    unfold bind, lift. rewrite host_of_eq by assumption. reflexivity.
Qed.

(** ProjectCodeTest1.py, [extract_articles]: every article retrieved has
    ['/politics/'] in its link; resolving a relative link only puts the
    host in front of it. *)
Theorem downloaded_links_mention_politics (Hset : set_semantics (set_list L))
    (url : string) (max : nat) :
  Forall (fun l => py_contains "/politics/" l = true)
         (downloads (fst (extract_articles L url max))).
Proof.
  rewrite extract_articles_eq.
  destruct (get_listing L url) as [hrefs|e]; [|constructor].
  destruct (snd (mapM (resolve url) (firstn max (candidate_links L hrefs))))
    as [links|e] eqn:E; [|constructor].
  simpl. rewrite extract_loop_downloads.
  apply mapM_resolve_suffix in E.
  eapply Forall_impl; [|exact E].
  intros y [x [pre [Hx ->]]].
  apply In_firstn_of in Hx. unfold candidate_links in Hx.
  apply (proj2 (Hset _)), filter_In in Hx as [_ Hx].
  apply py_contains_app; [discriminate|exact Hx].
Qed.

Lemma insert_key_sorted k ks :
  Sorted (fun a b => String.leb a b = true) ks ->
  Sorted (fun a b => String.leb a b = true) (insert_key k ks).
Proof.
  induction 1 as [|k' ks Hs IH Hhd]; simpl.
  - repeat constructor.
  - destruct (String.leb k k') eqn:E.
    + constructor; [constructor; assumption|constructor; exact E].
    + assert (E' : String.leb k' k = true).
      { destruct (String.leb_total k k') as [H|H]; [congruence|exact H]. }
      constructor; [exact IH|].
      destruct ks as [|k'' ks]; simpl; [constructor; exact E'|].
      inversion Hhd; subst.
      destruct (String.leb k k''); constructor; assumption.
Qed.

Lemma sort_keys_sorted ks : Sorted (fun a b => String.leb a b = true) (sort_keys ks).
Proof.
  induction ks as [|k ks IH]; simpl; [constructor|].
  apply insert_key_sorted, IH.
Qed.

Lemma leb_neq_ltb a b : String.leb a b = true -> a <> b -> String.ltb a b = true.
Proof.
  unfold String.leb, String.ltb. intros H Hne.
  destruct (String.compare a b) eqn:E; try reflexivity; [|discriminate].
  apply String.compare_eq_iff in E. contradiction.
Qed.

Lemma sorted_nodup_strict (l : list string) :
  Sorted (fun a b => String.leb a b = true) l -> NoDup l ->
  Sorted (fun a b => String.ltb a b = true) l.
Proof.
  induction 1 as [|a l Hs IH Hhd]; intros Hnd; constructor.
  - apply IH. inversion Hnd; assumption.
  - destruct Hhd as [|b l' Hab]; constructor.
    apply leb_neq_ltb; [exact Hab|].
    intros ->. inversion Hnd as [|? ? Hni]. apply Hni. left. reflexivity.
Qed.

Lemma groups_skip {A} (r : string * A) rs (ks : list string) :
  ~ In (fst r) ks ->
  flat_map (group_of (r :: rs)) ks = flat_map (group_of rs) ks.
Proof.
  induction ks as [|k ks IH]; intros Hni; [reflexivity|].
  simpl. unfold group_of at 1. simpl.
  destruct (String.eqb (fst r) k) eqn:E.
  - apply String.eqb_eq in E. exfalso. apply Hni. left. symmetry. exact E.
  - rewrite IH by (intros H; apply Hni; right; exact H). reflexivity.
Qed.

Lemma groups_cons {A} (r : string * A) rs (ks : list string) :
  NoDup ks -> In (fst r) ks ->
  Permutation (flat_map (group_of (r :: rs)) ks)
              (snd r :: flat_map (group_of rs) ks).
Proof.
  induction ks as [|k ks IH]; intros Hnd Hin; [contradiction|].
  inversion Hnd as [|? ? Hni Hnd']; subst.
  simpl. unfold group_of at 1 3. simpl.
  destruct (String.eqb (fst r) k) eqn:E.
  - apply String.eqb_eq in E. subst k.
    rewrite groups_skip by exact Hni. reflexivity.
  - destruct Hin as [Hk|Hin].
    + rewrite Hk, String.eqb_refl in E. discriminate.
    + rewrite (IH Hnd' Hin). apply Permutation_sym, Permutation_middle.
Qed.

Lemma groups_partition {A} (rows : list (string * A)) (ks : list string) :
  NoDup ks -> (forall r, In r rows -> In (fst r) ks) ->
  Permutation (flat_map (group_of rows) ks) (map snd rows).
Proof.
  intros Hnd. induction rows as [|r rs IH]; intros Hcov.
  - clear. induction ks as [|k ks IHk]; [constructor|]. exact IHk.
  - rewrite (groups_cons r rs ks Hnd (Hcov r (or_introl eq_refl))).
    simpl. constructor. apply IH.
    intros r' Hr'. apply Hcov. right. exact Hr'.
Qed.

Lemma groupby_flat_map (rows : list (string * Score)) :
  Permutation (flat_map snd (groupby_source rows)) (map snd rows).
Proof.
  unfold groupby_source. rewrite flat_map_concat_map, map_map. simpl.
  rewrite <- flat_map_concat_map.
  change (fun k => map snd (filter (fun r => String.eqb (fst r) k) rows))
    with (group_of rows).
  rewrite (sort_keys_perm (nodup string_dec (map fst rows))).
  apply groups_partition; [apply NoDup_nodup|].
  intros r Hr. apply nodup_In, in_map, Hr.
Qed.

Lemma list_sum_lengths {A} (gs : list (string * list A)) :
  list_sum (map (fun g => List.length (snd g)) gs) = List.length (flat_map snd gs).
Proof.
  induction gs as [|g gs IH]; simpl; [reflexivity|].
  rewrite length_app, IH. reflexivity.
Qed.

(** pro1.py, [df.groupby('source')]: the groups come in strictly
    increasing order of their source name. *)
Theorem groupby_keys_strictly_sorted (rows : list (string * Score)) :
  Sorted (fun a b => String.ltb a b = true) (map fst (groupby_source rows)).
Proof.
  unfold groupby_source. rewrite map_map. simpl. rewrite map_id.
  apply sorted_nodup_strict; [apply sort_keys_sorted|].
  apply (Permutation_NoDup (Permutation_sym (sort_keys_perm _))), NoDup_nodup.
Qed.

(** pro1.py, [df.groupby('source')]: the groups partition the values:
    every row's value is in exactly one group, so the group values are a
    rearrangement of the column and the group sizes add up to the number
    of rows. *)
Theorem groupby_partitions_values (rows : list (string * Score)) :
  Permutation (flat_map snd (groupby_source rows)) (map snd rows) /\
  list_sum (map (fun g => List.length (snd g)) (groupby_source rows))
  = List.length rows.
Proof.
  split; [apply groupby_flat_map|].
  rewrite list_sum_lengths, (Permutation_length (groupby_flat_map rows)).
  apply length_map.
Qed.

Lemma mapM_forall2 {A B} (f : A -> M B) xs ys :
  snd (mapM f xs) = Ok ys -> Forall2 (fun x y => snd (f x) = Ok y) xs ys.
Proof.
  revert ys. induction xs as [|x xs IH]; simpl; intros ys H.
  - injection H as <-. constructor.
  - apply bind_ok in H as [y [Hy H]]. apply bind_ok in H as [ys' [Hys H]].
    simpl in H. injection H as <-. constructor; [exact Hy|exact (IH _ Hys)].
Qed.

Lemma map_snd_combine {A B} (xs : list A) (ys : list B) :
  List.length xs = List.length ys -> map snd (combine xs ys) = ys.
Proof.
  revert ys. induction xs as [|x xs IH]; intros [|y ys] H; simpl in *;
    try discriminate; auto.
  f_equal. apply IH. lia.
Qed.

Lemma Forall2_combine {A B} (P : A -> B -> Prop) xs ys :
  Forall2 P xs ys -> Forall (fun p => P (fst p) (snd p)) (combine xs ys).
Proof. induction 1; simpl; constructor; assumption. Qed.

Lemma score_column_polarity records sents :
  snd (score_column L records) = Ok sents ->
  records <> [] /\
  Forall2 (fun r s => polarity L (rec_text r) = Ok s) records sents.
Proof.
  destruct records as [|r rs]; [discriminate|]. intros H.
  split; [discriminate|].
  apply mapM_forall2 in H. eapply Forall2_impl; [|exact H].
  intros x y Hxy. cbv beta in Hxy. rewrite bind_eq in Hxy. exact Hxy.
Qed.

Lemma score_column_stop pre r post e :
  Forall (fun x => is_ok (polarity L (rec_text x)) = true) pre ->
  polarity L (rec_text r) = Raise e ->
  mapM (fun x => emit (Polarity (rec_text x)) ;;; lift (polarity L (rec_text x)))
       (app pre (r :: post))
  = (map (fun x => Polarity (rec_text x)) (app pre [r]), Raise e).
Proof.
  intros Hpre Hr. induction Hpre as [|x pre Hx _ IH]; simpl in *.
  - rewrite Hr. reflexivity.
  - destruct (polarity L (rec_text x)); [|discriminate]. simpl.
    rewrite IH. reflexivity.
Qed.

(** pro1.py: once the records are scored, [f_oneway] receives every
    score exactly once: the values of its groups are a rearrangement of
    the sentiment column and the group sizes it is called with add up to
    the number of articles collected. *)
Theorem anova_input_covers_all_scores (srcs : list (string * string))
    (records : list Rec) (sents : list Score)
    (Hr : snd (collect_pro1 L srcs) = Ok records)
    (Hs : snd (score_column L records) = Ok sents) :
  let groups := groupby_source (combine (map source records) sents) in
  In (FOneway (map (fun g => List.length (snd g)) groups)) (fst (main_pro1 L srcs)) /\
  Permutation (flat_map snd groups) sents /\
  list_sum (map (fun g => List.length (snd g)) groups) = List.length records.
Proof.
  intros groups.
  assert (Hlen : List.length sents = List.length records)
    by exact (score_column_length L _ _ Hs).
  assert (Hsnd : map snd (combine (map source records) sents) = sents).
  { apply map_snd_combine. rewrite length_map. lia. }
  split; [|split].
  - unfold main_pro1. rewrite bind_eq, Hr. cbn [fst snd].
    rewrite bind_eq, Hs. cbn [fst snd]. rewrite bind_eq. cbn [fst snd emit].
    apply in_or_app. right. apply in_or_app. right. left. reflexivity.
  - rewrite <- Hsnd. apply groupby_flat_map.
  - unfold groups.
    rewrite list_sum_lengths, (Permutation_length (groupby_flat_map _)).
    rewrite Hsnd. exact Hlen.
Qed.

(** pro1.py and ProjectCodeTest2.py: when no article is collected,
    [pd.DataFrame([])] has no column ['text'], so [df['text']] raises
    [KeyError] right after the collection: no score is computed and
    [f_oneway] is never called. *)
Theorem empty_collection_key_error (srcs : list (string * string))
    (H1 : snd (collect_pro1 L srcs) = Ok [])
    (H2 : snd (collect_test2 L srcs) = Ok []) :
  main_pro1 L srcs = (fst (collect_pro1 L srcs), Raise "KeyError: 'text'") /\
  main_test2 L srcs = (fst (collect_test2 L srcs), Raise "KeyError: 'text'").
Proof.
  unfold main_pro1, main_test2. rewrite !bind_eq, H1, H2. simpl.
  rewrite !app_nil_r. split; reflexivity.
Qed.

(** ProjectCodeTest2.py: a successful run pairs every collected record,
    in order, with VADER's compound score of its full text; at least one
    record was collected. *)
Theorem main_test2_scores (srcs : list (string * string))
    (pairs : list (Rec * Score)) (H : snd (main_test2 L srcs) = Ok pairs) :
  exists records,
    snd (collect_test2 L srcs) = Ok records /\ records <> [] /\
    map fst pairs = records /\
    Forall (fun p => polarity L (rec_text (fst p)) = Ok (snd p)) pairs.
Proof.
  unfold main_test2 in H.
  apply bind_ok in H as [records [Hr H]].
  apply bind_ok in H as [sents [Hs H]]. simpl in H. injection H as <-.
  exists records. split; [exact Hr|].
  destruct (score_column_polarity records sents Hs) as [Hne Hp].
  split; [exact Hne|]. split.
  - apply map_fst_combine. exact (Forall2_length Hp).
  - exact (Forall2_combine _ _ _ Hp).
Qed.

(** pro1.py and ProjectCodeTest2.py, [df['text'].apply(...)]: the texts
    are scored in row order and the first exception stops the column: the
    scorer is called on the texts up to the failing one and never on the
    texts after it. *)
Theorem scoring_stops_at_first_failure (pre : list Rec) (r : Rec)
    (post : list Rec) (e : string)
    (Hpre : Forall (fun x => is_ok (polarity L (rec_text x)) = true) pre)
    (Hr : polarity L (rec_text r) = Raise e) :
  score_column L (app pre (r :: post))
  = (map (fun x => Polarity (rec_text x)) (app pre [r]), Raise e).
Proof.
  unfold score_column.
  destruct (app pre (r :: post)) as [|x xs] eqn:E;
    [destruct pre; discriminate|].
  rewrite <- E. apply score_column_stop; assumption.
Qed.

Lemma extract_articles_length url max texts :
  snd (extract_articles L url max) = Ok texts -> List.length texts <= max.
Proof.
  rewrite extract_articles_eq.
  destruct (get_listing L url) as [hrefs|e]; [|discriminate].
  destruct (mapM_resolve url (firstn max (candidate_links L hrefs))) as [_ Hr].
  destruct (snd (mapM (resolve url) (firstn max (candidate_links L hrefs))))
    as [links|e]; [|discriminate].
  simpl. intros H. pose proof (extract_loop_length L links) as Hl.
  rewrite H in Hl. pose proof (firstn_le_length max (candidate_links L hrefs)).
  lia.
Qed.

Lemma classify_loop_length outlet texts rows :
  snd (classify_loop L outlet texts) = Ok rows ->
  List.length rows <= List.length texts.
Proof.
  rewrite classify_loop_eq. simpl. intros H. injection H as <-.
  apply flat_map_length_le. intros t.
  destruct (classifier L (py_slice_to 512 t)); simpl; lia.
Qed.

Lemma fetch_articles_pro1_length url max arts :
  snd (fetch_articles_pro1 L url max) = Ok arts -> List.length arts <= max.
Proof.
  rewrite fetch_articles_pro1_eq. cbn [snd]. intros H.
  pose proof (fetch_loop_pro1_length L _ _ H).
  pose proof (firstn_le_length max (parse_feed L url)). lia.
Qed.

Lemma fetch_articles_test2_length url max arts :
  snd (fetch_articles_test2 L url max) = Ok arts -> List.length arts <= max.
Proof.
  rewrite fetch_articles_test2_eq. cbn [snd]. intros H.
  pose proof (fetch_loop_test2_length L _ _ H).
  pose proof (firstn_le_length max (parse_feed L url)). lia.
Qed.

Lemma collect_length fetch header n srcs recs :
  (forall url arts, snd (fetch url) = Ok arts -> List.length arts <= n) ->
  snd (collect fetch header srcs) = Ok recs ->
  List.length recs <= n * List.length srcs.
Proof.
  intros Hf. revert recs.
  induction srcs as [|[src url] rest IH]; cbn [collect]; intros recs H.
  - injection H as <-. simpl. lia.
  - apply bind_ok in H as [[] [_ H]].
    apply bind_ok in H as [arts [Ha H]].
    apply bind_ok in H as [more [Hm H]].
    simpl in H. injection H as <-.
    rewrite length_app, length_map.
    specialize (Hf _ _ Ha). specialize (IH _ Hm). simpl List.length. rewrite Nat.mul_succ_r. lia.
Qed.

Lemma notices_account {A B C} (r : A -> result B) (d : A -> string)
    (msg : A -> string -> string) (out : A -> B -> C) xs :
  List.length (notices (flat_map (fun x => Download (d x) ::
                          match r x with
                          | Ok _ => []
                          | Raise e => [Print (msg x e)]
                          end) xs))
  + List.length (flat_map (fun x => match r x with
                                    | Ok t => [out x t]
                                    | Raise _ => []
                                    end) xs)
  = List.length xs.
Proof.
  induction xs as [|x xs IH]; [reflexivity|].
  unfold notices in *. simpl. rewrite !flat_map_app, !length_app.
  destruct (r x); simpl; lia.
Qed.

Lemma gets_app l1 l2 : gets (app l1 l2) = app (gets l1) (gets l2).
Proof. apply flat_map_app. Qed.

Lemma extract_articles_gets url max :
  gets (fst (extract_articles L url max)) = [url].
Proof.
  rewrite extract_articles_eq.
  destruct (get_listing L url) as [hrefs|e]; [|reflexivity].
  destruct (snd (mapM (resolve url) (firstn max (candidate_links L hrefs))))
    as [links|e]; [|reflexivity].
  simpl. rewrite extract_loop_eq. simpl. f_equal.
  induction links as [|x xs IH]; [reflexivity|].
  simpl. rewrite gets_app, IH. destruct (newspaper L x); reflexivity.
Qed.

Lemma classify_loop_gets outlet texts :
  gets (fst (classify_loop L outlet texts)) = [].
Proof.
  rewrite classify_loop_eq. simpl.
  induction texts as [|t ts IH]; [reflexivity|].
  simpl. rewrite gets_app, IH.
  destruct (classifier L (py_slice_to 512 t)); reflexivity.
Qed.

Lemma gets_nil evs :
  Forall (fun ev => match ev with Get _ => False | _ => True end) evs ->
  gets evs = [].
Proof.
  induction 1 as [|ev evs Hev _ IH]; [reflexivity|].
  unfold gets in *. simpl. rewrite IH. destruct ev; try contradiction; reflexivity.
Qed.

Lemma fetch_articles_pro1_gets url max :
  gets (fst (fetch_articles_pro1 L url max)) = [url].
Proof.
  rewrite fetch_articles_pro1_eq. cbn [fst].
  change (gets (Get url :: ?x)) with (url :: gets x). f_equal.
  apply gets_nil. unfold fetch_loop_pro1. apply Forall_loopM. intros x _.
  eapply Forall_impl; [|apply fetch_one_pro1_events]. intros [] H; auto.
Qed.

Lemma fetch_articles_test2_gets url max :
  gets (fst (fetch_articles_test2 L url max)) = [url].
Proof.
  rewrite fetch_articles_test2_eq. cbn [fst].
  change (gets (Get url :: ?x)) with (url :: gets x). f_equal.
  apply gets_nil. unfold fetch_loop_test2. apply Forall_loopM. intros x _.
  eapply Forall_impl; [|apply fetch_one_test2_events]. intros [] H; auto.
Qed.

Lemma collect_gets fetch header srcs recs :
  (forall url, gets (fst (fetch url)) = [url]) ->
  snd (collect fetch header srcs) = Ok recs ->
  gets (fst (collect fetch header srcs)) = map snd srcs.
Proof.
  intros Hf. revert recs.
  induction srcs as [|[src url] rest IH]; cbn [collect]; intros recs H;
    [reflexivity|].
  apply bind_ok in H as [[] [_ H]].
  apply bind_ok in H as [arts [Ha H]].
  apply bind_ok in H as [more [Hm _]].
  rewrite bind_eq. cbn [emit fst snd]. rewrite bind_eq, Ha. cbn [fst snd].
  rewrite bind_eq, Hm. cbn [fst snd ret].
  rewrite !gets_app, Hf, (IH _ Hm), app_nil_r. reflexivity.
Qed.

(** The three scripts never invent an outlet: every row of
    ProjectCodeTest1.py carries the name of one of the sites it was run
    on, and every record of the feed scripts the name of one of the
    feeds. *)
Theorem outlets_never_invented (sites srcs : list (string * string))
    (rows : list (Row1 Score)) (recs1 recs2 : list Rec)
    (H1 : snd (collect1 L sites) = Ok rows)
    (H2 : snd (collect_pro1 L srcs) = Ok recs1)
    (H3 : snd (collect_test2 L srcs) = Ok recs2) :
  Forall (fun r => In (r1_outlet r) (map fst sites)) rows /\
  Forall (fun r => In (source r) (map fst srcs)) recs1 /\
  Forall (fun r => In (source r) (map fst srcs)) recs2.
Proof.
  split; [|split; [exact (collect_sources _ _ _ _ H2)
                  |exact (collect_sources _ _ _ _ H3)]].
  revert rows H1.
  induction sites as [|[outlet url] rest IH]; simpl; intros rows H.
  - injection H as <-. constructor.
  - apply bind_ok in H as [texts [_ H]].
    apply bind_ok in H as [rs [Hr H]].
    apply bind_ok in H as [more [Hm H]].
    simpl in H. injection H as <-.
    apply Forall_app. split.
    + pose proof (classify_loop_rows L outlet texts) as Er. rewrite Hr in Er.
      eapply Forall_impl; [|exact Er]. intros r [_ [-> _]]. left. reflexivity.
    + eapply Forall_impl; [|exact (IH _ Hm)]. intros r Hr'. right. exact Hr'.
Qed.

(** Run totals: a complete run of ProjectCodeTest1.py keeps at most 10
    rows per site, one of pro1.py at most 20 records per feed and one of
    ProjectCodeTest2.py at most 10 records per feed. *)
Theorem collection_totals (sites srcs : list (string * string))
    (rows : list (Row1 Score)) (recs1 recs2 : list Rec)
    (H1 : snd (collect1 L sites) = Ok rows)
    (H2 : snd (collect_pro1 L srcs) = Ok recs1)
    (H3 : snd (collect_test2 L srcs) = Ok recs2) :
  List.length rows <= 10 * List.length sites /\
  List.length recs1 <= 20 * List.length srcs /\
  List.length recs2 <= 10 * List.length srcs.
Proof.
  split; [|split].
  - revert rows H1.
    induction sites as [|[outlet url] rest IH]; simpl; intros rows H.
    + injection H as <-. simpl. lia.
    + apply bind_ok in H as [texts [Ht H]].
      apply bind_ok in H as [rs [Hr H]].
      apply bind_ok in H as [more [Hm H]].
      simpl in H. injection H as <-. rewrite length_app.
      pose proof (extract_articles_length url 10 texts Ht).
      pose proof (classify_loop_length outlet texts rs Hr).
      specialize (IH _ Hm). lia.
  - exact (collect_length _ _ 20 srcs recs1
             (fun url arts H => fetch_articles_pro1_length url 20 arts H) H2).
  - exact (collect_length _ _ 10 srcs recs2
             (fun url arts H => fetch_articles_test2_length url 10 arts H) H3).
Qed.

Lemma notices_app l1 l2 : notices (app l1 l2) = app (notices l1) (notices l2).
Proof. apply flat_map_app. Qed.

Lemma account_flat_map {A B} (f : A -> list event) (g : A -> list B) xs :
  (forall x, In x xs -> List.length (notices (f x)) + List.length (g x) = 1) ->
  List.length (notices (flat_map f xs)) + List.length (flat_map g xs)
  = List.length xs.
Proof.
  induction xs as [|x xs IH]; intros H; [reflexivity|].
  cbn [flat_map]. rewrite notices_app, !length_app.
  pose proof (H x (or_introl eq_refl)) as Hx.
  pose proof (IH (fun y Hy => H y (or_intror Hy))) as Hr.
  simpl. lia.
Qed.

(** The article loops: the one of ProjectCodeTest1.py never raises, and
    those of the feed scripts do not raise when every entry has a link.
    Each candidate then ends either as an article or as one printed
    notice: notices plus articles make the number of candidates. *)
Theorem article_loops_account (links : list string) (entries : list Entry)
    (Hlinks : Forall (fun e => link e <> None) entries) :
  (exists arts, snd (extract_loop L links) = Ok arts /\
     List.length (notices (fst (extract_loop L links))) + List.length arts
     = List.length links) /\
  (exists arts, snd (fetch_loop_pro1 L entries) = Ok arts /\
     List.length (notices (fst (fetch_loop_pro1 L entries))) + List.length arts
     = List.length entries) /\
  (exists arts, snd (fetch_loop_test2 L entries) = Ok arts /\
     List.length (notices (fst (fetch_loop_test2 L entries))) + List.length arts
     = List.length entries).
Proof.
  rewrite Forall_forall in Hlinks. split; [|split].
  - rewrite extract_loop_eq. eexists. split; [reflexivity|].
    exact (notices_account (newspaper L) (fun l => l)
             (fun _ e => "Skipping article: " ++ e)
             (fun _ t => py_slice_to 1000 t) links).
  - rewrite (fetch_loop_pro1_links L entries (proj2 (Forall_forall _ _) Hlinks)).
    eexists. split; [reflexivity|]. cbn [fst].
    apply account_flat_map. intros x Hx.
    destruct (link x) as [l|] eqn:E; [|exfalso; exact (Hlinks x Hx E)].
    rewrite (fetch_one_pro1_link L x l E). cbn [fst].
    destruct (art_pro1 L x l); reflexivity.
  - rewrite (fetch_loop_test2_links L entries (proj2 (Forall_forall _ _) Hlinks)).
    eexists. split; [reflexivity|]. cbn [fst].
    apply account_flat_map. intros x Hx.
    destruct (link x) as [l|] eqn:E; [|exfalso; exact (Hlinks x Hx E)].
    rewrite (fetch_one_test2_link L x l E). cbn [fst].
    destruct (art_test2 L x l); reflexivity.
Qed.


(** Every complete run retrieves each configured listing page or feed
    exactly once, in the order of the configuration. *)
Theorem listings_retrieved_in_order (sites srcs : list (string * string))
    (rows : list (Row1 Score)) (recs1 recs2 : list Rec)
    (H1 : snd (collect1 L sites) = Ok rows)
    (H2 : snd (collect_pro1 L srcs) = Ok recs1)
    (H3 : snd (collect_test2 L srcs) = Ok recs2) :
  gets (fst (collect1 L sites)) = map snd sites /\
  gets (fst (collect_pro1 L srcs)) = map snd srcs /\
  gets (fst (collect_test2 L srcs)) = map snd srcs.
Proof.
  split; [|split].
  - revert rows H1.
    induction sites as [|[outlet url] rest IH]; cbn [collect1]; intros rows H;
      [reflexivity|].
    apply bind_ok in H as [texts [Ht H]].
    apply bind_ok in H as [rs [Hr H]].
    apply bind_ok in H as [more [Hm _]].
    rewrite bind_eq, Ht. cbn [fst snd]. rewrite bind_eq, Hr. cbn [fst snd].
    rewrite bind_eq, Hm. cbn [fst snd ret].
    rewrite !gets_app, extract_articles_gets, classify_loop_gets,
      (IH _ Hm), app_nil_r. reflexivity.
  - exact (collect_gets _ _ srcs recs1
             (fun url => fetch_articles_pro1_gets url 20) H2).
  - exact (collect_gets _ _ srcs recs2
             (fun url => fetch_articles_test2_gets url 10) H3).
Qed.

Lemma Forall_mapM {A B} (P : event -> Prop) (f : A -> M B) xs :
  (forall x, Forall P (fst (f x))) -> Forall P (fst (mapM f xs)).
Proof.
  intros Hf. induction xs as [|x xs IH]; simpl; [constructor|].
  apply Forall_bind; [apply Hf|]. intros y.
  apply Forall_bind; [exact IH|constructor].
Qed.

Lemma collect_pro1_not_verdict srcs :
  Forall not_verdict (fst (collect_pro1 L srcs)).
Proof.
  unfold collect_pro1.
  induction srcs as [|[src url] rest IH]; cbn [collect]; [constructor|].
  apply Forall_bind.
  - constructor; [|constructor]. intros b H. injection H as H.
    destruct b; discriminate H.
  - intros _. apply Forall_bind; [|intros arts; apply Forall_bind;
                                   [exact IH|constructor]].
    rewrite fetch_articles_pro1_eq. cbn [fst].
    constructor; [intros b H; discriminate H|].
    unfold fetch_loop_pro1. apply Forall_loopM. intros x _.
    eapply Forall_impl; [|apply fetch_one_pro1_events].
    intros [] H b E; try discriminate E.
    destruct H as [l [ex ->]]. injection E as E. destruct b; discriminate E.
Qed.

Lemma score_column_not_verdict records :
  Forall not_verdict (fst (score_column L records)).
Proof.
  destruct records as [|r rs]; [constructor|].
  apply Forall_mapM. intros x.
  apply Forall_bind; [|intros _; constructor].
  constructor; [intros b H; discriminate H|constructor].
Qed.

(** pro1.py: a complete run prints the ANOVA verdict exactly once, as
    its last effect, and the message printed is the one of the returned
    significance flag, which is [p_value < 0.05] for [f_oneway] on the
    returned groups. *)
Theorem verdict_printed_once_last (srcs : list (string * string))
    (groups : list (string * list Score)) (sig : bool)
    (H : snd (main_pro1 L srcs) = Ok (groups, sig)) :
  (exists evs, fst (main_pro1 L srcs) = app evs [Print (verdict_msg sig)] /\
               Forall not_verdict evs) /\
  exists sp, f_oneway L (map snd groups) = Ok sp /\ sig = p_lt_005 L (snd sp).
Proof.
  unfold main_pro1 in *.
  apply bind_ok in H as [records [Hr H]].
  apply bind_ok in H as [sents [Hs H]].
  cbv zeta in H. apply bind_ok in H as [[] [_ H]].
  apply bind_ok in H as [sp [Hsp H]].
  apply bind_ok in H as [[] [_ H]].
  simpl in H, Hsp. injection H as <- <-.
  split; [|exists sp; split; [exact Hsp|reflexivity]].
  rewrite bind_eq, Hr. cbn [fst snd]. rewrite bind_eq, Hs. cbn [fst snd].
  cbv zeta. rewrite bind_eq. cbn [fst snd emit]. rewrite bind_eq. cbn [fst snd lift].
  rewrite Hsp. cbn [fst snd]. rewrite bind_eq. cbn [fst snd emit ret].
  eexists. split.
  - rewrite app_nil_l, app_nil_r, !app_assoc. reflexivity.
  - apply Forall_app. split; [apply Forall_app; split|].
    + apply collect_pro1_not_verdict.
    + apply score_column_not_verdict.
    + constructor; [intros b E; discriminate E|constructor].
Qed.

End Extras.

Lemma extract_articles_resolved_links_witness :
  let hrefs := ["/politics/a"; "https://www.foxnews.com/politics/b";
                "/sports/c"; "/politics/a"] in
  py_contains "/" "https:" = false /\
  py_contains "/" "edition.cnn.com" = false /\
  get_listing (fx_libs "") ("https:" ++ "//" ++ "edition.cnn.com" ++ "/" ++ "politics")
    = Ok hrefs /\
  downloads (fst (extract_articles (fx_libs "")
                    ("https:" ++ "//" ++ "edition.cnn.com" ++ "/" ++ "politics") 10))
  = map (fun x => if py_startswith "http" x then x
                  else "https://" ++ "edition.cnn.com" ++ x)
        (firstn 10 (candidate_links (fx_libs "") hrefs)).
Proof.
  cbv zeta.
  split; [vm_compute; reflexivity|].
  split; [vm_compute; reflexivity|].
  split; [vm_compute; reflexivity|].
  apply (extract_articles_resolved_links (fx_libs "") "https:" "edition.cnn.com"
           "politics"); vm_compute; reflexivity.
Defined.

Lemma downloaded_links_mention_politics_witness :
  set_semantics (set_list (fx_libs "")) /\
  Forall (fun l => py_contains "/politics/" l = true)
         (downloads (fst (extract_articles (fx_libs "")
                            "https://edition.cnn.com/politics" 10))).
Proof.
  split; [exact nodup_set_semantics|].
  exact (downloaded_links_mention_politics (fx_libs "") nodup_set_semantics
           "https://edition.cnn.com/politics" 10).
Defined.

Lemma anova_input_covers_all_scores_witness :
  let srcs := [("CNN", "http://rss.cnn.com/rss/cnn_allpolitics.rss");
               ("Fox News", "http://feeds.foxnews.com/foxnews/politics")] in
  let records :=
    [mkRec "CNN" "Story 1" "Story at https://news.example/politics/1" "2025-01-01";
     mkRec "Fox News" "Story 1" "Story at https://news.example/politics/1"
           "2025-01-01"] in
  let sents := [1; 1] in
  snd (collect_pro1 (fx_libs "") srcs) = Ok records /\
  snd (score_column (fx_libs "") records) = Ok sents /\
  (let groups := groupby_source (combine (map source records) sents) in
   In (FOneway (map (fun g => List.length (snd g)) groups))
      (fst (main_pro1 (fx_libs "") srcs)) /\
   Permutation (flat_map snd groups) sents /\
   list_sum (map (fun g => List.length (snd g)) groups) = List.length records).
Proof.
  cbv zeta.
  split; [vm_compute; reflexivity|].
  split; [vm_compute; reflexivity|].
  eapply (anova_input_covers_all_scores (fx_libs ""));
    vm_compute; reflexivity.
Defined.

Lemma empty_collection_key_error_witness :
  let srcs := [("NYT", "https://rss.nytimes.com/services/xml/rss/nyt/Politics.xml")] in
  snd (collect_pro1 (fx_libs "") srcs) = Ok [] /\
  snd (collect_test2 (fx_libs "") srcs) = Ok [] /\
  (main_pro1 (fx_libs "") srcs
   = (fst (collect_pro1 (fx_libs "") srcs), Raise "KeyError: 'text'") /\
   main_test2 (fx_libs "") srcs
   = (fst (collect_test2 (fx_libs "") srcs), Raise "KeyError: 'text'")).
Proof.
  cbv zeta.
  split; [vm_compute; reflexivity|].
  split; [vm_compute; reflexivity|].
  apply (empty_collection_key_error (fx_libs "")); vm_compute; reflexivity.
Defined.

Lemma main_test2_scores_witness :
  let pairs := combine fx_recs_test2 [1] in
  snd (main_test2 (fx_libs "") fx_srcs) = Ok pairs /\
  exists records,
    snd (collect_test2 (fx_libs "") fx_srcs) = Ok records /\ records <> [] /\
    map fst pairs = records /\
    Forall (fun p => polarity (fx_libs "") (rec_text (fst p)) = Ok (snd p)) pairs.
Proof.
  cbv zeta.
  split; [vm_compute; reflexivity|].
  apply (main_test2_scores (fx_libs "")); vm_compute; reflexivity.
Defined.

Lemma scoring_stops_at_first_failure_witness :
  let pre := [mkRec "CNN" "A" "fine" "2025-01-01"] in
  let r := mkRec "CNN" "B" "page/3" "2025-01-01" in
  let post := [mkRec "CNN" "C" "after" "2025-01-01"] in
  Forall (fun x => is_ok (polarity (fx_libs "") (rec_text x)) = true) pre /\
  polarity (fx_libs "") (rec_text r) = Raise "ValueError" /\
  score_column (fx_libs "") (app pre (r :: post))
  = (map (fun x => Polarity (rec_text x)) (app pre [r]), Raise "ValueError").
Proof.
  cbv zeta.
  split; [repeat constructor|].
  split; [vm_compute; reflexivity|].
  apply (scoring_stops_at_first_failure (fx_libs ""));
    [repeat constructor | vm_compute; reflexivity].
Defined.

Lemma outlets_never_invented_witness :
  snd (collect1 (fx_libs "") fx_sites) = Ok fx_rows /\
  snd (collect_pro1 (fx_libs "") fx_srcs) = Ok fx_recs_pro1 /\
  snd (collect_test2 (fx_libs "") fx_srcs) = Ok fx_recs_test2 /\
  (Forall (fun r => In (r1_outlet r) (map fst fx_sites)) fx_rows /\
   Forall (fun r => In (source r) (map fst fx_srcs)) fx_recs_pro1 /\
   Forall (fun r => In (source r) (map fst fx_srcs)) fx_recs_test2).
Proof.
  split; [vm_compute; reflexivity|].
  split; [vm_compute; reflexivity|].
  split; [vm_compute; reflexivity|].
  apply (outlets_never_invented (fx_libs "")); vm_compute; reflexivity.
Defined.

Lemma collection_totals_witness :
  snd (collect1 (fx_libs "") fx_sites) = Ok fx_rows /\
  snd (collect_pro1 (fx_libs "") fx_srcs) = Ok fx_recs_pro1 /\
  snd (collect_test2 (fx_libs "") fx_srcs) = Ok fx_recs_test2 /\
  (List.length fx_rows <= 10 * List.length fx_sites /\
   List.length fx_recs_pro1 <= 20 * List.length fx_srcs /\
   List.length fx_recs_test2 <= 10 * List.length fx_srcs).
Proof.
  split; [vm_compute; reflexivity|].
  split; [vm_compute; reflexivity|].
  split; [vm_compute; reflexivity|].
  apply (collection_totals (fx_libs "")); vm_compute; reflexivity.
Defined.

Lemma article_loops_account_witness :
  Forall (fun e => link e <> None) [fx_entry "1"; fx_entry "2"] /\
  ((exists arts, snd (extract_loop (fx_libs "") ["https://empty.example/politics/x"])
                 = Ok arts /\
     List.length (notices (fst (extract_loop (fx_libs "")
                                 ["https://empty.example/politics/x"])))
     + List.length arts = List.length ["https://empty.example/politics/x"]) /\
   (exists arts, snd (fetch_loop_pro1 (fx_libs "") [fx_entry "1"; fx_entry "2"])
                 = Ok arts /\
     List.length (notices (fst (fetch_loop_pro1 (fx_libs "")
                                 [fx_entry "1"; fx_entry "2"])))
     + List.length arts = List.length [fx_entry "1"; fx_entry "2"]) /\
   (exists arts, snd (fetch_loop_test2 (fx_libs "") [fx_entry "1"; fx_entry "2"])
                 = Ok arts /\
     List.length (notices (fst (fetch_loop_test2 (fx_libs "")
                                 [fx_entry "1"; fx_entry "2"])))
     + List.length arts = List.length [fx_entry "1"; fx_entry "2"])).
Proof.
  assert (H : Forall (fun e => link e <> None) [fx_entry "1"; fx_entry "2"])
    by (repeat constructor; intros E; discriminate E).
  split; [exact H|].
  exact (article_loops_account (fx_libs "") ["https://empty.example/politics/x"]
           [fx_entry "1"; fx_entry "2"] H).
Defined.

Lemma listings_retrieved_in_order_witness :
  snd (collect1 (fx_libs "") fx_sites) = Ok fx_rows /\
  snd (collect_pro1 (fx_libs "") fx_srcs) = Ok fx_recs_pro1 /\
  snd (collect_test2 (fx_libs "") fx_srcs) = Ok fx_recs_test2 /\
  (gets (fst (collect1 (fx_libs "") fx_sites)) = map snd fx_sites /\
   gets (fst (collect_pro1 (fx_libs "") fx_srcs)) = map snd fx_srcs /\
   gets (fst (collect_test2 (fx_libs "") fx_srcs)) = map snd fx_srcs).
Proof.
  split; [vm_compute; reflexivity|].
  split; [vm_compute; reflexivity|].
  split; [vm_compute; reflexivity|].
  apply (listings_retrieved_in_order (fx_libs "") _ _ fx_rows fx_recs_pro1
           fx_recs_test2); vm_compute; reflexivity.
Defined.

Lemma verdict_printed_once_last_witness :
  let srcs := [("CNN", "http://rss.cnn.com/rss/cnn_allpolitics.rss");
               ("Fox News", "http://feeds.foxnews.com/foxnews/politics")] in
  let groups := [("CNN", [1]); ("Fox News", [1])] in
  snd (main_pro1 (fx_libs "") srcs) = Ok (groups, true) /\
  ((exists evs, fst (main_pro1 (fx_libs "") srcs)
                = app evs [Print (verdict_msg true)] /\
                Forall not_verdict evs) /\
   exists sp, f_oneway (fx_libs "") (map snd groups) = Ok sp /\
              true = p_lt_005 (fx_libs "") (snd sp)).
Proof.
  cbv zeta.
  split; [vm_compute; reflexivity|].
  apply (verdict_printed_once_last (fx_libs "")); vm_compute; reflexivity.
Defined.
